(** * uv-deploy-tools: the packaging pipeline of [deploy.py]

    A shallow embedding of [OrbitDeployer] (version resolution, artifact
    cache, staging directory, bootstrap scripts) and of the [deploy]
    command's loop over servers, with the properties of the specification
    stated over it.

    Conventions of the embedding.
    - Python [str] values are [string]s of bytes; the text handled here
      (version numbers, file names) is ASCII, and [\d] of [re] is read on
      the ASCII digits.
    - Python [int] is unbounded: [N].
    - [dict]s keyed by strings are [gmap string _].
    - A method that reads or writes files is a function on an explicit
      [State]; what it may raise is an [exn] in its [result]. What the
      methods only read (the project, the configuration of the server, the
      local uv directory, the network, the clock) is an [Env].
    - Messages printed on the console are left out. *)

From Stdlib Require Import NArith Ascii String Decimal DecimalString DecimalN DecimalPos.
From stdpp Require Import base option list sorting strings gmap.

Local Open Scope N_scope.

(** ** Python string primitives *)

Module Py.

Definition is_digit (c : ascii) : bool :=
  match c with
  | "0" | "1" | "2" | "3" | "4" | "5" | "6" | "7" | "8" | "9" => true
  | _ => false
  end%char.

(** The longest run of digits at the head of [s], and what follows:
    what a greedy [\d*] consumes. *)
Fixpoint span_digits (s : string) : string * string :=
  match s with
  | String c s' =>
      if is_digit c
      then let '(d, r) := span_digits s' in (String c d, r)
      else ("", s)
  | "" => ("", "")
  end.

(** [int(s)] on the strings this program gives it, which are runs of
    digits: leading zeros are allowed. [None] stands for [ValueError] (the
    empty string, or a character that is no digit). The interpreter's limit
    on the number of digits is not modelled. *)
Definition int (s : string) : option N :=
  N.of_uint <$> NilZero.uint_of_string s.

(** [str(n)], also what an f-string prints for an integer. *)
Definition str (n : N) : string :=
  NilZero.string_of_uint (N.to_uint n).

(** [s.split(sep)] for a separator of one character. *)
Fixpoint split (sep : ascii) (s : string) : list string :=
  match s with
  | "" => [""]
  | String c s' =>
      if Ascii.eqb c sep then "" :: split sep s'
      else match split sep s' with
           | h :: t => String c h :: t
           | [] => [String c ""]
           end
  end.

(** [sep.join(l)] *)
Definition join (sep : string) (l : list string) : string :=
  String.concat sep l.

(** [s.startswith(p)] *)
Definition startswith (p s : string) : bool := String.prefix p s.

(** [s.replace(old, new)] for a non-empty [old]: occurrences are taken
    from the left and do not overlap. [skip] counts the characters of a
    replaced occurrence still to be dropped. *)
Fixpoint replace_go (old new : string) (skip : nat) (s : string) : string :=
  match s with
  | "" => ""
  | String c s' =>
      match skip with
      | S k => replace_go old new k s'
      | O =>
          if String.prefix old s
          then new +:+ replace_go old new (pred (String.length old)) s'
          else String c (replace_go old new O s')
      end
  end.
Definition replace (old new s : string) : string := replace_go old new O s.

(** ASCII white space, as [str.strip()] and [str.isspace()] see it. *)
Definition is_space (c : ascii) : bool :=
  let n := N_of_ascii c in
  ((9 <=? n) && (n <=? 13)) || ((28 <=? n) && (n <=? 32)).

Fixpoint lstrip (s : string) : string :=
  match s with
  | String c s' => if is_space c then lstrip s' else s
  | "" => ""
  end.
Definition strip (s : string) : string :=
  String.rev (lstrip (String.rev (lstrip s))).

(** Truth value of a string or [None]: [if not x]. *)
Definition truthy (x : option string) : bool :=
  match x with
  | Some (String _ _) => true
  | _ => false
  end.

(** What an f-string prints for a value that is a string or [None]. *)
Definition fmt (x : option string) : string := default "None" x.

(** The double quote character, for the text of generated scripts. *)
Definition dq : string := String (ascii_of_nat 34) "".

(** The line feed. *)
Definition nl : string := String (ascii_of_nat 10) "".

(** The backslash. *)
Definition bs : string := String (ascii_of_nat 92) "".

End Py.

(** ** The two regular expressions *)

Module Re.

(** [(\d+)\.(\d+)] at the head of [s]: the two groups and the rest.
    Both runs are greedy, and giving back digits never helps, since the
    next character would again be a digit. *)
Definition major_minor (s : string) : option (string * string * string) :=
  match Py.span_digits s with
  | (String _ _ as g1, String "." r) =>
      match Py.span_digits r with
      | (String _ _ as g2, r') => Some (g1, g2, r')
      | _ => None
      end
  | _ => None
  end.

(** [(?:\.(\d+))?] at the head of [s]: the group when it takes part. *)
Definition patch (s : string) : option string :=
  match s with
  | String "." r =>
      match Py.span_digits r with
      | (String _ _ as g3, _) => Some g3
      | _ => None
      end
  | _ => None
  end.

(** [re.match(r'(\d+)\.(\d+)(?:\.(\d+))?', s)]: groups 1, 2 and 3. *)
Definition match_version (s : string) : option (string * string * option string) :=
  '(g1, g2, r) ← major_minor s;
  Some (g1, g2, patch r).

(** [cpython-(\d+\.\d+(?:\.\d+)?)] tried at the head of [s]: group 1. *)
Definition cpython_here (s : string) : option string :=
  if Py.startswith "cpython-" s then
    '(g1, g2, r) ← major_minor (String.substring 8 (String.length s - 8) s);
    Some (g1 +:+ "." +:+ g2 +:+
          match patch r with Some g3 => "." +:+ g3 | None => "" end)
  else None.

(** [re.search(r'cpython-(\d+\.\d+(?:\.\d+)?)', s)]: group 1 of the
    leftmost match. *)
Fixpoint search_cpython (s : string) : option string :=
  match cpython_here s with
  | Some v => Some v
  | None =>
      match s with
      | String _ s' => search_cpython s'
      | "" => None
      end
  end.

End Re.

(** ** Files, exceptions and the state the methods act on *)

(** A file system entry: a regular file with its bytes, or a directory with
    the regular files below it, each under its path relative to the
    directory ([bin/python3]). Permission bits are not represented: [chmod]
    leaves the modelled state as it is. *)
Inductive node :=
| File (data : string)
| Dir (files : gmap string string).

(** The exceptions the methods can meet, all of them subclasses of
    [Exception]; [OSError] stands for its subclasses too. [sys.exit] is
    only called while a deployer is constructed, and is modelled there. *)
Inductive exn :=
| ValueError
| TypeError
| KeyError
| OSError.

Inductive result (A : Type) :=
| Ret (a : A)
| Exc (e : exn).
Arguments Ret {A} a.
Arguments Exc {A} e.

(** [datetime.now()] *)
Record datetime := {
  year : N; month : N; day : N;
  hour : N; minute : N; second : N; microsecond : N
}.

(** What [tomllib.load] gives for [pyproject.toml], as far as
    [get_project_version] looks: the [project] table when there is one, and
    in it the [version] entry when there is one. *)
Record toml_doc := { toml_project : option (option string) }.

(** One entry of [servers] in [configs/servers.yaml], with the [defaults]
    that [load_server_config] attaches to it, and what the remote host
    answers over SSH. *)
Record server_config := {
  (** [server_config.get('os', 'windows').lower()] *)
  target_os : string;
  (** [defaults['uv_download_url']], when the key is there *)
  uv_download_url : option string;
  (** [defaults.get('python_version')] *)
  default_python_version : option string;
  (** whether [ssh.connect] and [open_sftp] go through *)
  ssh_connects : bool;
  (** the exception [transfer_package] dies of, if any *)
  transfer_fails : option exn;
  (** stdout and stderr of the remote test run, or what the call dies of *)
  test_output : result (string * string)
}.

(** Everything a run reads and does not change. *)
Record Env := {
  project_name : string;
  (** the entries of [../project_name]; [None]: no such directory *)
  project_dir : option (gmap string node);
  server : server_config;
  (** [C:/Users/{USERNAME}/AppData/Roaming/uv/python] and
      [C:/Users/{USERNAME}/.local/share/uv/python]: [None] when the
      directory does not exist, else what [glob] yields in it for a
      pattern, in the order it yields it *)
  uv_roaming : option (string → list (string * node));
  uv_local_share : option (string → list (string * node));
  (** the bytes behind a URL; [None]: [urlretrieve] raises *)
  urlretrieve : string → option string;
  (** the files in an archive, by member name; [None]: the bytes are not
      an archive of that kind *)
  unzip : string → option (gmap string string);
  untar : string → option (gmap string string);
  tomllib_load : string → option toml_doc;
  (** [templates/setup.bat.template] and [templates/run.bat.template] *)
  setup_template : option string;
  run_template : option string;
  now : datetime
}.

(** What a run changes. *)
Record State := {
  (** the entries of [cache/]; [None]: there is no such directory *)
  cache : option (gmap string node);
  (** the entries of the staging directory [deploy_dir] *)
  deploy : gmap string node;
  (** the URLs given to [urlretrieve] so far, latest first *)
  fetched : list string;
  (** the archives under [packages/] *)
  packages : gmap string (gmap string node)
}.

Definition set_cache (c : option (gmap string node)) (st : State) : State :=
  {| cache := c; deploy := deploy st; fetched := fetched st; packages := packages st |}.
Definition set_deploy (d : gmap string node) (st : State) : State :=
  {| cache := cache st; deploy := d; fetched := fetched st; packages := packages st |}.
Definition log_fetch (url : string) (st : State) : State :=
  {| cache := cache st; deploy := deploy st; fetched := url :: fetched st;
     packages := packages st |}.
Definition set_packages (p : gmap string (gmap string node)) (st : State) : State :=
  {| cache := cache st; deploy := deploy st; fetched := fetched st; packages := p |}.

(** A method: it ends with a value or an exception, in a new state. *)
Definition M (A : Type) : Type := State → result A * State.

Definition ret {A} (a : A) : M A := λ st, (Ret a, st).
Definition raise {A} (e : exn) : M A := λ st, (Exc e, st).
Definition bind {A B} (c : M A) (k : A → M B) : M B :=
  λ st, match c st with
        | (Ret a, st') => k a st'
        | (Exc e, st') => (Exc e, st')
        end.
(** [try: c except Exception: h] *)
Definition try_except {A} (c : M A) (h : M A) : M A :=
  λ st, match c st with
        | (Exc _, st') => h st'
        | r => r
        end.
Definition get {A} (f : State → A) : M A := λ st, (Ret (f st), st).
Definition modify (f : State → State) : M unit := λ st, (Ret tt, f st).

Notation "x <- c ;; k" := (bind c (λ x, k))
  (at level 100, c at next level, right associativity).
Notation "c ;;; k" := (bind c (λ _, k))
  (at level 100, right associativity).

(** [Path('cache') / name] exists *)
Definition cache_lookup (name : string) (st : State) : option node :=
  cache st ≫= (.!! name).
Definition cache_exists (name : string) (st : State) : bool :=
  bool_decide (is_Some (cache_lookup name st)).

(** Writing a regular file [cache/name]: the directory has to be there, and
    [name] must not be a directory. *)
Definition cache_write (name data : string) : M unit :=
  λ st, match cache st with
        | None => (Exc OSError, st)
        | Some m =>
            match m !! name with
            | Some (Dir _) => (Exc OSError, st)
            | _ => (Ret tt, set_cache (Some (<[name := File data]> m)) st)
            end
        end.

(** [Path.unlink()] on [cache/name] *)
Definition cache_unlink (name : string) : M unit :=
  λ st, match cache st with
        | Some m =>
            match m !! name with
            | Some (File _) => (Ret tt, set_cache (Some (delete name m)) st)
            | _ => (Exc OSError, st)
            end
        | None => (Exc OSError, st)
        end.

(** [Path.read_text()] on [cache/name] *)
Definition cache_read (name : string) : M string :=
  λ st, match cache_lookup name st with
        | Some (File data) => (Ret data, st)
        | _ => (Exc OSError, st)
        end.

(** ** Version resolution: [find_best_python_version] *)

(** A value of [available_versions]: the full version and the build date,
    which is [None] for an entry found on disk. *)
Abbreviation ver_info := (string * option string)%type.

(** The second component of what [find_best_python_version] returns: an
    entry of the catalog, or a string. *)
Inductive info :=
| Tuple (v : ver_info)
| Str (s : string).

(** The static table used for Linux. *)
Definition linux_versions : gmap string ver_info :=
  <["3.10" := ("3.10.15", Some "20240909")]>
  (<["3.11" := ("3.11.10", Some "20240909")]>
  (<["3.12" := ("3.12.7", Some "20241016")]>
  (<["3.13" := ("3.13.0", Some "20241016")]> ∅))).

(** ['.'.join(ver.split('.')[:2])] *)
Definition short_ver (ver : string) : string :=
  Py.join "." (take 2 (Py.split "." ver)).

(** The loop over the folders [cpython-*]: a later folder with the same
    short version replaces the earlier entry. *)
Fixpoint scan_folders (folders : list (string * node))
    (available_versions : gmap string ver_info) : gmap string ver_info :=
  match folders with
  | [] => available_versions
  | (name, _) :: folders' =>
      match Re.search_cpython name with
      | Some ver =>
          scan_folders folders' (<[short_ver ver := (ver, None)]> available_versions)
      | None => scan_folders folders' available_versions
      end
  end.

(** The catalog for the target: the table for ['linux'], else the runtimes
    installed under the local uv directory. *)
Definition available_versions (env : Env) : gmap string ver_info :=
  if decide (target_os (server env) = "linux") then linux_versions
  else match uv_roaming env with
       | Some glob => scan_folders (glob "cpython-*") ∅
       | None => ∅
       end.

(** Order of [sorted(..., reverse=True)] on the items of a dict: keys are
    strings, compared character by character, and no two items share a key,
    so the values never come into play. *)
Definition key_ge (x y : string * ver_info) : Prop := String.le y.1 x.1.
Global Instance key_ge_dec : RelDecision key_ge.
Proof. intros x y. unfold key_ge. apply _. Defined.

Definition sorted_reverse (m : gmap string ver_info) : list (string * ver_info) :=
  merge_sort key_ge (map_to_list m).

(** [v_major, v_minor = map(int, v_short.split('.'))] *)
Definition key_version (v_short : string) : option (N * N) :=
  match Py.split "." v_short with
  | [a; b] => v_major ← Py.int a; v_minor ← Py.int b; Some (v_major, v_minor)
  | _ => None
  end.

(** [v_major < major or (v_major == major and v_minor < minor)] *)
Definition lower (v : N * N) (major minor : N) : bool :=
  (v.1 <? major) || ((v.1 =? major) && (v.2 <? minor)).

(** The loop that looks for the fallback: the first item, in the order
    given, that is below the request. *)
Fixpoint first_lower (major minor : N) (items : list (string * ver_info))
    : result (option (string * ver_info)) :=
  match items with
  | [] => Ret None
  | (v_short, v_info) :: items' =>
      match key_version v_short with
      | Some v =>
          if lower v major minor then Ret (Some (v_short, v_info))
          else first_lower major minor items'
      | None => Exc ValueError
      end
  end.

(** [cache/.python_fallback_{project_name}], as a name in [cache/]; a
    project name is one path component. *)
Definition fallback_file (env : Env) : string :=
  ".python_fallback_" +:+ project_name env.

Definition pad (width : nat) (n : N) : string :=
  let s := Py.str n in
  String.concat "" (replicate (width - String.length s) "0") +:+ s.

(** [datetime.isoformat()] *)
Definition isoformat (t : datetime) : string :=
  pad 4 (year t) +:+ "-" +:+ pad 2 (month t) +:+ "-" +:+ pad 2 (day t) +:+ "T" +:+
  pad 2 (hour t) +:+ ":" +:+ pad 2 (minute t) +:+ ":" +:+ pad 2 (second t) +:+
  (if microsecond t =? 0 then "" else "." +:+ pad 6 (microsecond t)).

(** The text of a FallbackRecord. *)
Definition fallback_record (requested used : string) (t : datetime) : string :=
  requested +:+ "|" +:+ used +:+ "|" +:+ isoformat t.

(** [f"{major}.{minor}"] *)
Definition short_key (major minor : N) : string :=
  Py.str major +:+ "." +:+ Py.str minor.

(** The method from [requested_short] on, for a request that was parsed to
    [major] and [minor]. *)
Definition resolve (env : Env) (requested_version : string) (major minor : N)
    : M (option string * option info) :=
  let available_versions := available_versions env in
  let requested_short := short_key major minor in
  match available_versions !! requested_short with
  | Some v_info => ret (Some requested_short, Some (Tuple v_info))
  | None =>
      match first_lower major minor (sorted_reverse available_versions) with
      | Exc e => raise e
      | Ret (Some (fallback_version, fallback_info)) =>
          if Py.truthy (Some fallback_version) then
            cache_write (fallback_file env)
              (fallback_record requested_version fallback_version (now env)) ;;;
            ret (Some fallback_version, Some (Tuple fallback_info))
          else ret (None, None)
      | Ret None => ret (None, None)
      end
  end.

(** [major] and [minor] of a request, when the pattern matches. *)
Definition parse_request (requested_version : string) : option (N * N) :=
  match Re.match_version requested_version with
  | Some (g1, g2, _) => major ← Py.int g1; minor ← Py.int g2; Some (major, minor)
  | None => None
  end.

Definition find_best_python_version (env : Env) (requested_version : string)
    : M (option string * option info) :=
  match Re.match_version requested_version with
  | None => ret (Some requested_version, Some (Str requested_version))
  | Some (g1, g2, _) =>
      match Py.int g1, Py.int g2 with
      | Some major, Some minor => resolve env requested_version major minor
      | _, _ => raise ValueError
      end
  end.

(** A run of digits. *)
Fixpoint digits (s : string) : bool :=
  match s with
  | "" => true
  | String c s' => Py.is_digit c && digits s'
  end.

(** ** The artifact cache of the tool binary: [download_uv] *)

(** [uv_cache.parent.mkdir(exist_ok=True)] *)
Definition cache_mkdir : M unit :=
  modify (λ st, match cache st with
                | None => set_cache (Some ∅) st
                | Some _ => st
                end).

(** [urllib.request.urlretrieve(url, cache/name)] *)
Definition fetch (env : Env) (url name : string) : M unit :=
  modify (log_fetch url) ;;;
  match urlretrieve env url with
  | Some bytes => cache_write name bytes
  | None => raise OSError
  end.

(** The last component of a path. *)
Definition basename (path : string) : string :=
  default "" (last (Py.split "/" path)).

(** [temp_dir.rglob('uv')], kept to the regular files: the first file
    called [uv] anywhere below the directory. *)
Definition rglob_uv_file (tree : gmap string string) : option (string * string) :=
  head (filter (λ kv, basename kv.1 = "uv") (map_to_list tree)).

(** [tf.extractall(cache/name)]: the members are written below the
    directory, over what is already there. *)
Definition extractall (members : gmap string string) (name : string) : M unit :=
  λ st, match cache st with
        | None => (Exc OSError, st)
        | Some m =>
            if decide (members = ∅) then (Ret tt, st)
            else match m !! name with
                 | Some (File _) => (Exc OSError, st)
                 | Some (Dir old) =>
                     (Ret tt, set_cache (Some (<[name := Dir (members ∪ old)]> m)) st)
                 | None =>
                     (Ret tt, set_cache (Some (<[name := Dir members]> m)) st)
                 end
        end.

Definition uv_filename (target_os : string) : string :=
  if decide (target_os = "windows") then "uv.exe" else "uv".

(** The place of the tool binary in [cache/], by target. *)
Definition uv_cache (target_os : string) : string :=
  uv_filename target_os +:+ "_" +:+ target_os.

Definition uv_linux_url : string :=
  "https://github.com/astral-sh/uv/releases/latest/download/uv-x86_64-unknown-linux-gnu.tar.gz".

(** [shutil.copy2(cache/src, deploy_dir/dst)] *)
Definition copy_to_deploy (src dst : string) : M unit :=
  λ st, match cache_lookup src st with
        | Some (File data) => (Ret tt, set_deploy (<[dst := File data]> (deploy st)) st)
        | _ => (Exc OSError, st)
        end.

(** The branch of [download_uv] that fills the cache for Windows. *)
Definition download_uv_windows (env : Env) (os uv_url : string) : M unit :=
  let zip_path := "uv_" +:+ os +:+ ".zip" in
  fetch env uv_url zip_path ;;;
  zip <- cache_read zip_path ;;
  match unzip env zip ≫= (.!! "uv.exe") with
  | None => raise KeyError
  | Some data =>
      cache_write "uv.exe" data ;;;
      cache_unlink zip_path ;;;
      cache_unlink "uv.exe" ;;;
      cache_write (uv_cache os) data
  end.

(** The branch for the other targets; [false] when the archive holds no
    file called [uv]. *)
Definition download_uv_linux (env : Env) (os uv_url : string) : M bool :=
  let tar_path := "uv_" +:+ os +:+ ".tar.gz" in
  fetch env uv_url tar_path ;;;
  tar <- cache_read tar_path ;;
  match untar env tar with
  | None => raise OSError
  | Some members =>
      extractall members "temp_uv" ;;;
      temp_dir <- get (cache_lookup "temp_uv") ;;
      match match temp_dir with
            | Some (Dir tree) => rglob_uv_file tree
            | _ => None
            end with
      | Some (_, data) =>
          cache_write (uv_cache os) data ;;;
          modify (λ st, set_cache (delete "temp_uv" <$> cache st) st) ;;;
          cache_unlink tar_path ;;;
          ret true
      | None => ret false
      end
  end.

Definition download_uv (env : Env) : M bool :=
  let os := target_os (server env) in
  uv_url <- (if decide (os = "windows")
             then match uv_download_url (server env) with
                  | Some url => ret url
                  | None => raise KeyError
                  end
             else ret uv_linux_url) ;;
  present <- get (cache_exists (uv_cache os)) ;;
  filled <- (if present then ret true
             else cache_mkdir ;;;
                  if decide (os = "windows")
                  then download_uv_windows env os uv_url ;;; ret true
                  else download_uv_linux env os uv_url) ;;
  if filled then
    copy_to_deploy (uv_cache os) (uv_filename os) ;;;
    ret true
  else ret false.

(** ** The runtime: [copy_python] *)

(** [original, used, timestamp = text.split('|')] *)
Definition parse_fallback (text : string) : option (string * string * string) :=
  match Py.split "|" text with
  | [original; used; timestamp] => Some (original, used, timestamp)
  | _ => None
  end.

(** [full_version, build_date = version_info] *)
Definition unpack_info (version_info : option info) : result (string * option string) :=
  match version_info with
  | Some (Tuple (full_version, build_date)) => Ret (full_version, build_date)
  | Some (Str (String a (String b ""))) => Ret (String a "", Some (String b ""))
  | Some (Str _) => Exc ValueError
  | None => Exc TypeError
  end.

Definition python_url (full_version : string) (build_date : option string) : string :=
  "https://github.com/indygreg/python-build-standalone/releases/download/"
  +:+ Py.fmt build_date +:+ "/cpython-" +:+ full_version +:+ "+" +:+ Py.fmt build_date
  +:+ "-x86_64-unknown-linux-gnu-install_only_stripped.tar.gz".

(** The place of a runtime in [cache/], by version. *)
Definition python_cache (best_version : string) : string :=
  "python-" +:+ best_version +:+ "-linux".

(** The files of [tree] below its entry [name], under their paths relative
    to it; [None] when [tree] has no such directory. *)
Definition subdir (name : string) (tree : gmap string string) : option (gmap string string) :=
  let below := filter (λ kv, Py.startswith (name +:+ "/") kv.1 = true) (map_to_list tree) in
  match below with
  | [] => None
  | _ => Some (list_to_map
           ((λ kv, (String.substring (S (String.length name))
                      (String.length kv.1 - S (String.length name)) kv.1, kv.2)) <$> below))
  end.

(** [shutil.copytree(python_path, deploy_dir/dst)]: the source has to be a
    directory and the target must not exist. *)
Definition copytree_to_deploy (python_path : option node) (dst : string) : M unit :=
  λ st, match python_path, deploy st !! dst with
        | Some (Dir tree), None => (Ret tt, set_deploy (<[dst := Dir tree]> (deploy st)) st)
        | _, _ => (Exc OSError, st)
        end.

(** [python_cache / "python"] when it exists, else [python_cache] itself:
    the entry that [copytree] is given. *)
Definition choose_python_path (python_cache : node) : node :=
  match python_cache with
  | Dir tree =>
      match tree !! "python", subdir "python" tree with
      | Some data, _ => File data
      | None, Some sub => Dir sub
      | None, None => Dir tree
      end
  | File data => File data
  end.

(** The Linux branch up to the choice of [python_path]: the cached
    runtime, downloaded first when it is not there. [None] when the
    download fails. *)
Definition ensure_python_linux (env : Env) (best_version full_version : string)
    (build_date : option string) : M (option node) :=
  present <- get (cache_exists (python_cache best_version)) ;;
  ok <- (if present then ret true
         else
           let tar_path := "python-" +:+ best_version +:+ "-linux.tar.gz" in
           try_except
             (fetch env (python_url full_version build_date) tar_path ;;;
              tar <- cache_read tar_path ;;
              match untar env tar with
              | None => raise OSError
              | Some members =>
                  extractall members (python_cache best_version) ;;;
                  cache_unlink tar_path ;;;
                  ret true
              end)
             (ret false)) ;;
  if ok then
    entry <- get (cache_lookup (python_cache best_version)) ;;
    match entry with
    | Some python_cache => ret (Some (choose_python_path python_cache))
    | None => raise OSError
    end
  else ret None.

(** The Windows branch: the first folder either directory yields for the
    pattern. *)
Definition find_python_windows (env : Env) (best_version : string) : option node :=
  let pattern := "cpython-" +:+ best_version +:+ "*-windows-x86_64-none" in
  let found base_path :=
    match base_path with
    | Some glob => head (glob pattern)
    | None => None
    end in
  match found (uv_roaming env) with
  | Some python_path => Some python_path.2
  | None => snd <$> found (uv_local_share env)
  end.

(** The end of [copy_python], from the copy of the runtime on. *)
Definition finish_copy (env : Env) (python_path : option node)
    (best_version python_version : string) : M bool :=
  copytree_to_deploy python_path ("python-" +:+ best_version) ;;;
  still <- get (cache_exists (fallback_file env)) ;;
  (if decide (best_version = python_version) then
     if still then cache_unlink (fallback_file env) else ret tt
   else ret tt) ;;;
  ret true.

(** The choice of [python_path]: the installed folder for Windows, the
    cached download otherwise. [None]: the method gives up. *)
Definition locate_python (env : Env) (best_version : string)
    (version_info : option info) : M (option node) :=
  if decide (target_os (server env) = "windows")
  then ret (find_python_windows env best_version)
  else match unpack_info version_info with
       | Ret (full_version, build_date) =>
           ensure_python_linux env best_version full_version build_date
       | Exc e => raise e
       end.

(** [copy_python] from the call of [find_best_python_version] on, once
    [python_version] is settled. *)
Definition copy_python_from (env : Env) (python_version : string) : M bool :=
  best <- find_best_python_version env python_version ;;
  let '(best_version, version_info) := best in
  if negb (Py.truthy best_version) then ret false
  else
    let best_version := default "" best_version in
    python_path <- locate_python env best_version version_info ;;
    match python_path with
    | None => ret false
    | Some _ => finish_copy env python_path best_version python_version
    end.

Definition copy_python (env : Env) (python_version : string) : M bool :=
  recorded <- get (cache_exists (fallback_file env)) ;;
  python_version <-
    (if recorded then
       text <- cache_read (fallback_file env) ;;
       match parse_fallback text with
       | Some (original, _, _) => ret original
       | None => raise ValueError
       end
     else ret python_version) ;;
  copy_python_from env python_version.

(** ** The bootstrap scripts: [create_batch_scripts] *)

Definition lines (l : list string) : string :=
  String.concat "" ((λ x, x +:+ Py.nl) <$> l).

Definition echo (text : string) : string :=
  "echo " +:+ Py.dq +:+ text +:+ Py.dq.

Definition rule : string := "========================================".

(** The built-in [setup.bat] *)
Definition default_setup_bat (actual_version : string) : string :=
  lines [ "@echo off";
          "echo Installation de l'environnement Python...";
          "uv.exe venv --python python-" +:+ actual_version +:+ Py.bs +:+ "python.exe";
          "echo Environnement cree avec succes!" ].

(** The built-in [run.bat] *)
Definition default_run_bat : string :=
  lines [ "@echo off";
          ".venv" +:+ Py.bs +:+ "Scripts" +:+ Py.bs +:+ "python.exe main.py";
          "pause" ].

(** [setup.sh] *)
Definition setup_sh (actual_version : string) : string :=
  lines [ "#!/bin/bash";
          echo rule;
          echo "Installation de l'environnement Python";
          echo rule;
          echo "";
          "./uv venv --python python-" +:+ actual_version +:+ "/bin/python";
          echo "";
          echo "Environnement créé avec succès!";
          echo rule ].

(** [run.sh] *)
Definition run_sh (project_name : string) : string :=
  lines [ "#!/bin/bash";
          echo rule;
          echo ("Exécution de " +:+ project_name);
          echo rule;
          echo "";
          ".venv/bin/python main.py";
          echo "";
          echo "Appuyez sur Entrée pour continuer...";
          "read" ].

(** [list(deploy_dir.glob('python-*'))]: the names in the staging directory
    that start with [python-]. The order of [glob] is the directory's own;
    here it is the order of the map, which is the same thing whenever at
    most one entry matches. *)
Definition python_dirs (deploy : gmap string node) : list string :=
  filter (λ name, Py.startswith "python-" name = true) (map_to_list deploy).*1.

(** The version the scripts are written for. *)
Definition actual_version (os : string) (deploy : gmap string node)
    (python_version : string) : string :=
  if decide (os = "linux") then
    match python_dirs deploy with
    | name :: _ => Py.replace "python-" "" name
    | [] => python_version
    end
  else python_version.

Definition write_deploy (name data : string) : M unit :=
  modify (λ st, set_deploy (<[name := File data]> (deploy st)) st).

Definition create_batch_scripts (env : Env) (python_version : string) : M unit :=
  let os := target_os (server env) in
  staged <- get deploy ;;
  let actual_version := actual_version os staged python_version in
  if decide (os = "windows") then
    write_deploy "setup.bat"
      match setup_template env with
      | Some content => Py.replace "{python_version}" actual_version content
      | None => default_setup_bat actual_version
      end ;;;
    write_deploy "run.bat"
      match run_template env with
      | Some content =>
          Py.replace "{main_file}" "main.py"
            (Py.replace "{project_name}" (project_name env) content)
      | None => default_run_bat
      end
  else
    write_deploy "setup.sh" (setup_sh actual_version) ;;;
    write_deploy "run.sh" (run_sh (project_name env)).

(** ** The archive: [create_deployment_package] *)

(** An entry of the project directory. *)
Definition project_entry (env : Env) (name : string) : option node :=
  project_dir env ≫= (.!! name).

Definition get_project_version (env : Env) : result string :=
  match project_entry env "pyproject.toml" with
  | Some (File bytes) =>
      match tomllib_load env bytes with
      | Some data => Ret (default "0.1.0" (default None (toml_project data)))
      | None => Exc ValueError
      end
  | Some (Dir _) => Exc OSError
  | None => Ret "0.1.0"
  end.

Definition get_python_version (env : Env) : result string :=
  match project_entry env ".python-version" with
  | Some (File text) => Ret (Py.strip text)
  | Some (Dir _) => Exc OSError
  | None => Ret (default "3.12" (default_python_version (server env)))
  end.

(** [strftime('%Y%m%d')] *)
Definition date_str (t : datetime) : string :=
  pad 4 (year t) +:+ pad 2 (month t) +:+ pad 2 (day t).

Definition package_name (project_name version : string) (t : datetime) : string :=
  project_name +:+ "-v" +:+ version +:+ "-" +:+ date_str t +:+ ".zip".

Definition files_to_copy : list string :=
  ["main.py"; "pyproject.toml"; ".python-version"; "requirements.txt"; "README.md"].
Definition folders_to_copy : list string :=
  ["src"; "templates"; "static"; "config"].

(** The loop over [files_to_copy]: [shutil.copy2] of those that exist. *)
Fixpoint copy_files (env : Env) (names : list string) : M unit :=
  match names with
  | [] => ret tt
  | file :: names' =>
      match project_entry env file with
      | Some (File data) => write_deploy file data ;;; copy_files env names'
      | Some (Dir _) => raise OSError
      | None => copy_files env names'
      end
  end.

(** The loop over the folders: [shutil.copytree] of those that exist. *)
Fixpoint copy_folders (env : Env) (names : list string) : M unit :=
  match names with
  | [] => ret tt
  | folder :: names' =>
      match project_entry env folder with
      | Some src_folder =>
          copytree_to_deploy (Some src_folder) folder ;;; copy_folders env names'
      | None => copy_folders env names'
      end
  end.

Definition lift {A} (r : result A) : M A :=
  match r with Ret a => ret a | Exc e => raise e end.

(** [with tempfile.TemporaryDirectory()]: the staging directory starts
    empty and is gone afterwards, however the body ends. *)
Definition with_staging {A} (body : M A) : M A :=
  λ st, let '(r, st') := body (set_deploy ∅ st) in (r, set_deploy ∅ st').

(** The name of the archive written, or [None] when a step gave up. *)
Definition create_deployment_package (env : Env) : M (option string) :=
  version <- lift (get_project_version env) ;;
  let package_name := package_name (project_name env) version (now env) in
  with_staging
    (copy_files env files_to_copy ;;;
     copy_folders env folders_to_copy ;;;
     uv <- download_uv env ;;
     if negb uv then ret None
     else
       python_version <- lift (get_python_version env) ;;
       python <- copy_python env python_version ;;
       if negb python then ret None
       else
         create_batch_scripts env python_version ;;;
         staged <- get deploy ;;
         modify (λ st, set_packages (<[package_name := staged]> (packages st)) st) ;;;
         ret (Some package_name)).

(** ** One target, and the loop over the targets *)

(** [bool(output) and not bool(error)] *)
Definition test_deployment (env : Env) : M bool :=
  match test_output (server env) with
  | Ret (String _ _, "") => ret true
  | Ret _ => ret false
  | Exc e => raise e
  end.

Definition transfer_package (env : Env) : M bool :=
  match transfer_fails (server env) with
  | Some e => raise e
  | None => ret true
  end.

Definition run (env : Env) : M bool :=
  if negb (ssh_connects (server env)) then ret false
  else
    package_path <- create_deployment_package env ;;
    match package_path with
    | None => ret false
    | Some _ =>
        sent <- transfer_package env ;;
        if negb sent then ret false
        else test_deployment env
    end.

Definition set_server (cfg : server_config) (env : Env) : Env :=
  {| project_name := project_name env; project_dir := project_dir env;
     server := cfg;
     uv_roaming := uv_roaming env; uv_local_share := uv_local_share env;
     urlretrieve := urlretrieve env; unzip := unzip env; untar := untar env;
     tomllib_load := tomllib_load env;
     setup_template := setup_template env; run_template := run_template env;
     now := now env |}.

(** [OrbitDeployer(project, srv, password)]: [None] stands for
    [sys.exit(1)], for a server that is not configured and for a project
    that is not there. *)
Definition OrbitDeployer (servers : gmap string server_config) (env : Env)
    (srv : string) : option Env :=
  match servers !! srv with
  | None => None
  | Some cfg =>
      match project_dir env with
      | None => None
      | Some _ => Some (set_server cfg env)
      end
  end.

(** What the loop of [deploy] has gathered so far. *)
Record tally := { succeeded : list string; failed : list string }.

(** How the command ends: it runs to its end, or [sys.exit] stops the
    process, [SystemExit] not being an [Exception] that the loop catches. *)
Inductive ended (A : Type) :=
| Done (a : A)
| Exited.
Arguments Done {A} a.
Arguments Exited {A}.

(** One turn of the loop: the body of [try], and [except Exception]. *)
Definition attempt (servers : gmap string server_config) (env : Env)
    (srv : string) (t : tally) (st : State) : ended tally * State :=
  match OrbitDeployer servers env srv with
  | None => (Exited, st)
  | Some deployer =>
      match run deployer st with
      | (Ret true, st') =>
          (Done {| succeeded := succeeded t ++ [srv]; failed := failed t |}, st')
      | (Ret false, st') | (Exc _, st') =>
          (Done {| succeeded := succeeded t; failed := failed t ++ [srv] |}, st')
      end
  end.

Fixpoint deploy_loop (servers : gmap string server_config) (env : Env)
    (servers_to_deploy : list string) (t : tally) (st : State)
    : ended tally * State :=
  match servers_to_deploy with
  | [] => (Done t, st)
  | srv :: rest =>
      match attempt servers env srv t st with
      | (Done t', st') => deploy_loop servers env rest t' st'
      | (Exited, st') => (Exited, st')
      end
  end.

(** The end of [deploy]: the tally, and the summary when it is printed. *)
Definition deploy_servers (servers : gmap string server_config) (env : Env)
    (servers_to_deploy : list string) (st : State)
    : ended (tally * option tally) * State :=
  match deploy_loop servers env servers_to_deploy
          {| succeeded := []; failed := [] |} st with
  | (Done t, st') =>
      (Done (t, if decide (1 < length servers_to_deploy)%nat then Some t else None), st')
  | (Exited, st') => (Exited, st')
  end.

(** [v] is the request or below it. *)
Definition at_or_below (v : N * N) (major minor : N) : bool :=
  lower v major minor || ((v.1 =? major) && (v.2 =? minor)).

(** Every key of a catalog splits into two numbers. *)
Definition keys_wf (m : gmap string ver_info) : Prop :=
  map_Forall (λ k _, is_Some (key_version k)) m.

(** A method keeps [cache/name] when an entry of that name before it is
    followed by an entry of that name after it, however the method ends. *)
Definition keeps (name : string) {A} (c : M A) : Prop :=
  ∀ st, is_Some (cache_lookup name st) → is_Some (cache_lookup name (c st).2).

(** What [run] answers for each target in turn, each one started in the
    state that the one before it left: [true] for [True], [false] for
    [False] and for an exception. The list stops where a deployer cannot
    be constructed. *)
Fixpoint verdicts (servers : gmap string server_config) (env : Env)
    (servers_to_deploy : list string) (st : State) : list bool :=
  match servers_to_deploy with
  | [] => []
  | srv :: rest =>
      match OrbitDeployer servers env srv with
      | Some deployer =>
          let '(r, st') := run deployer st in
          match r with
          | Ret true => true :: verdicts servers env rest st'
          | _ => false :: verdicts servers env rest st'
          end
      | None => []
      end
  end.

(** The targets whose verdict is [b]. *)
Definition targets_with (b : bool) (servers_to_deploy : list string)
    (vs : list bool) : list string :=
  (filter (λ p, p.2 = b) (zip servers_to_deploy vs)).*1.

(** [pad width n] has [width] digits and reads back as [n], as a test. *)
Definition pad_ok_b (width : nat) (n : N) : bool :=
  bool_decide (String.length (pad width n) = width ∧ Py.int (pad width n) = Some n).

(** No entry under key [k] at or below the request, as a test. *)
Definition none_at_or_below_b (major minor : N) (k : string) : bool :=
  match key_version k with
  | Some v => negb (at_or_below v major minor)
  | None => true
  end.

(** ** Scenarios *)

Module Scenario.

(** A shell pattern with [*] as its only special character. *)
Fixpoint fnmatch (pat : string) : string → bool :=
  match pat with
  | "" => λ name, bool_decide (name = "")
  | String c pat' =>
      if Ascii.eqb c "*" then
        fix star (name : string) : bool :=
          fnmatch pat' name ||
          match name with
          | String _ name' => star name'
          | "" => false
          end
      else λ name,
        match name with
        | String c' name' => Ascii.eqb c c' && fnmatch pat' name'
        | "" => false
        end
  end.

(** A directory of runtime folders, as [glob] shows it. *)
Definition listing (names : list string) : string → list (string * node) :=
  λ pat, (λ name, (name, Dir {["python.exe" := "MZ"]})) <$>
         filter (λ name, fnmatch pat name = true) names.

Definition a_server (os : string) : server_config :=
  {| target_os := os;
     uv_download_url := Some "https://example.org/uv.zip";
     default_python_version := None;
     ssh_connects := true; transfer_fails := None;
     test_output := Ret ("hello", "") |}.

Definition noon : datetime :=
  {| year := 2024; month := 5; day := 1;
     hour := 12; minute := 0; second := 0; microsecond := 0 |}.

(** A project [demo] with a [.python-version] file, on a machine whose
    uv directory holds the folders [installed]; nothing can be
    downloaded. *)
Definition machine (os python_version : string) (installed : list string) : Env :=
  {| project_name := "demo";
     project_dir := Some {[".python-version" := File python_version]};
     server := a_server os;
     uv_roaming := Some (listing installed);
     uv_local_share := None;
     urlretrieve := λ _, None;
     unzip := λ _, None; untar := λ _, None;
     tomllib_load := λ _, None;
     setup_template := None; run_template := None;
     now := noon |}.

(** A cache that holds the tool binary for both targets. *)
Definition warm : State :=
  {| cache := Some {["uv.exe_windows" := File "MZ"; "uv_linux" := File "ELF"]};
     deploy := ∅; fetched := []; packages := ∅ |}.

(** No [cache/] yet. *)
Definition cold : State :=
  {| cache := None; deploy := ∅; fetched := []; packages := ∅ |}.

(** The same machine with a network: every URL answers, with an archive
    that holds the tool binary or a runtime. *)
Definition online (os python_version : string) : Env :=
  {| project_name := "demo";
     project_dir := Some {[".python-version" := File python_version]};
     server := a_server os;
     uv_roaming := None; uv_local_share := None;
     urlretrieve := λ url, Some url;
     unzip := λ _, Some {["uv.exe" := "MZ"]};
     untar := λ bytes,
       if decide (bytes = uv_linux_url)
       then Some {["uv-x86_64-unknown-linux-gnu/uv" := "ELF"]}
       else Some {["python/bin/python3" := "ELF"]};
     tomllib_load := λ _, None;
     setup_template := None; run_template := None;
     now := noon |}.

(** The cache after a run that fell back from 3.13 to 3.12. *)
Definition fell_back : State :=
  {| cache := Some {["uv_linux" := File "ELF";
                     ".python_fallback_demo" := File "3.13|3.12|2024-04-30T08:00:00"]};
     deploy := ∅; fetched := []; packages := ∅ |}.

(** The project with a manifest that declares version 2.1.0, for a
    Windows target, with the runtime 3.12 installed. *)
Definition released : Env :=
  {| project_name := "demo";
     project_dir := Some {[".python-version" := File "3.12";
                           "pyproject.toml" := File "[project]"]};
     server := a_server "windows";
     uv_roaming := Some (listing ["cpython-3.12.7-windows-x86_64-none"]);
     uv_local_share := None;
     urlretrieve := λ _, None;
     unzip := λ _, None; untar := λ _, None;
     tomllib_load := λ _, Some {| toml_project := Some (Some "2.1.0") |};
     setup_template := None; run_template := None;
     now := noon |}.

(** Three servers: the second loses the connection during the transfer,
    the third answers the test with nothing. *)
Definition three_servers : gmap string server_config :=
  {[ "alpha" := a_server "windows";
     "beta" := {| target_os := "windows";
                  uv_download_url := Some "https://example.org/uv.zip";
                  default_python_version := None;
                  ssh_connects := true; transfer_fails := Some OSError;
                  test_output := Ret ("hello", "") |};
     "gamma" := {| target_os := "windows";
                   uv_download_url := Some "https://example.org/uv.zip";
                   default_python_version := None;
                   ssh_connects := true; transfer_fails := None;
                   test_output := Ret ("", "") |} ]}.

Definition two_runtimes : list string :=
  ["cpython-3.9.18-windows-x86_64-none"; "cpython-3.12.7-windows-x86_64-none"].

End Scenario.

(** * Properties *)

(** ** The string primitives *)

Example int_leading_zeros : Py.int "0012" = Some 12.
Proof. reflexivity. Qed.
Example int_empty : Py.int "" = None.
Proof. reflexivity. Qed.
Example str_zero : Py.str 0 = "0".
Proof. reflexivity. Qed.
Example split_version : Py.split "." "3.12.7" = ["3"; "12"; "7"].
Proof. reflexivity. Qed.
Example strip_file : Py.strip ("  3.12" +:+ Py.nl) = "3.12".
Proof. reflexivity. Qed.
Example replace_twice : Py.replace "{v}" "3.9" "a{v}b{v}" = "a3.9b3.9".
Proof. reflexivity. Qed.
Example match_patch : Re.match_version "3.12.7rc1" = Some ("3", "12", Some "7").
Proof. reflexivity. Qed.
Example match_no_minor : Re.match_version "3" = None.
Proof. reflexivity. Qed.
Example match_letters : Re.match_version "abc" = None.
Proof. reflexivity. Qed.
Example search_folder :
  Re.search_cpython "cpython-3.12.7-windows-x86_64-none" = Some "3.12.7".
Proof. reflexivity. Qed.

Lemma digits_string_of_uint d : digits (NilEmpty.string_of_uint d) = true.
Proof. induction d; simpl; auto. Qed.

Lemma to_uint_nonnil n : N.to_uint n ≠ Nil.
Proof. destruct n; simpl; [discriminate | apply Unsigned.to_uint_nonnil]. Qed.

Lemma digits_str n : digits (Py.str n) = true.
Proof.
  unfold Py.str, NilZero.string_of_uint.
  destruct (N.to_uint n) eqn:E; try reflexivity;
    rewrite <- E; apply digits_string_of_uint.
Qed.

Lemma str_nonempty n : Py.str n ≠ "".
Proof.
  unfold Py.str, NilZero.string_of_uint.
  pose proof (to_uint_nonnil n) as Hn.
  destruct (N.to_uint n); simpl; congruence.
Qed.

(** [int(str(n)) == n] *)
Lemma int_str n : Py.int (Py.str n) = Some n.
Proof.
  unfold Py.int, Py.str.
  rewrite NilZero.usu by apply to_uint_nonnil.
  simpl. f_equal. apply DecimalN.Unsigned.of_to.
Qed.

Lemma uint_of_char_digit c d :
  Py.is_digit c = true → is_Some (uint_of_char c (Some d)).
Proof.
  destruct c as [[|] [|] [|] [|] [|] [|] [|] [|]]; simpl;
    intros H; try discriminate H; eauto.
Qed.

Lemma uint_of_string_digits s :
  digits s = true → is_Some (NilEmpty.uint_of_string s).
Proof.
  induction s as [|c s IH]; simpl; [eauto|].
  intros [Hc Hs]%andb_prop. destruct (IH Hs) as [d ->].
  by apply uint_of_char_digit.
Qed.

(** [int] accepts every non-empty run of digits. *)
Lemma int_digits s : digits s = true → s ≠ "" → is_Some (Py.int s).
Proof.
  intros Hd Hne. unfold Py.int, NilZero.uint_of_string.
  destruct s as [|c s]; [done|].
  destruct (uint_of_string_digits _ Hd) as [d ->]. simpl. eauto.
Qed.

Lemma digit_not_dot c : Py.is_digit c = true → Ascii.eqb c "." = false.
Proof.
  destruct c as [[|] [|] [|] [|] [|] [|] [|] [|]]; simpl;
    intros H; try discriminate H; reflexivity.
Qed.

Lemma split_digits s : digits s = true → Py.split "." s = [s].
Proof.
  induction s as [|c s IH]; simpl; [done|].
  intros [Hc Hs]%andb_prop. rewrite (digit_not_dot _ Hc), (IH Hs). done.
Qed.

Lemma split_digits_dot s r :
  digits s = true → Py.split "." (s +:+ String "." r) = s :: Py.split "." r.
Proof.
  induction s as [|c s IH]; simpl; [done|].
  intros [Hc Hs]%andb_prop. rewrite (digit_not_dot _ Hc), (IH Hs). done.
Qed.

Lemma span_digits_spec s d r :
  Py.span_digits s = (d, r) → digits d = true ∧ s = d +:+ r.
Proof.
  revert d r. induction s as [|c s IH]; simpl; intros d r.
  - intros [= <- <-]. done.
  - destruct (Py.is_digit c) eqn:Hc.
    + destruct (Py.span_digits s) as [d' r'] eqn:E. intros [= <- <-].
      destruct (IH _ _ eq_refl) as [Hd ->]. simpl. by rewrite Hc, Hd.
    + intros [= <- <-]. done.
Qed.

(** What the two first groups of the request pattern look like. *)
Lemma major_minor_spec s g1 g2 r :
  Re.major_minor s = Some (g1, g2, r) →
  digits g1 = true ∧ g1 ≠ "" ∧ digits g2 = true ∧ g2 ≠ "" ∧
  s = g1 +:+ "." +:+ g2 +:+ r.
Proof.
  unfold Re.major_minor.
  destruct (Py.span_digits s) as [d1 r1] eqn:E1.
  destruct d1 as [|c1 d1]; [done|].
  destruct r1 as [|c r1]; [done|].
  destruct (Ascii.ascii_dec c ".") as [->|Hc].
  - destruct (Py.span_digits r1) as [d2 r2] eqn:E2.
    destruct d2 as [|c2 d2]; [done|]. intros [= <- <- <-].
    apply span_digits_spec in E1 as [H1 ->]. apply span_digits_spec in E2 as [H2 ->].
    repeat split; try done.
  - destruct c as [[|] [|] [|] [|] [|] [|] [|] [|]]; try done.
Qed.

Lemma patch_spec s g3 :
  Re.patch s = Some g3 → digits g3 = true ∧ g3 ≠ "".
Proof.
  unfold Re.patch. destruct s as [|c s]; [done|].
  destruct (Ascii.ascii_dec c ".") as [->|Hc].
  - destruct (Py.span_digits s) as [d r] eqn:E.
    destruct d as [|c' d]; [done|]. intros [= <-].
    apply span_digits_spec in E as [H _]. done.
  - destruct c as [[|] [|] [|] [|] [|] [|] [|] [|]]; try done.
Qed.

(** The groups of a request that matches are numbers. *)
Lemma match_version_ints s g1 g2 p :
  Re.match_version s = Some (g1, g2, p) →
  ∃ major minor, Py.int g1 = Some major ∧ Py.int g2 = Some minor.
Proof.
  unfold Re.match_version.
  destruct (Re.major_minor s) as [[[a b] r]|] eqn:E; [|done].
  simpl. intros [= <- <- <-].
  apply major_minor_spec in E as (H1 & N1 & H2 & N2 & _).
  destruct (int_digits _ H1 N1) as [x ->], (int_digits _ H2 N2) as [y ->]. eauto.
Qed.

(** A key made of two runs of digits reads back as two numbers. *)
Lemma key_version_digits g1 g2 :
  digits g1 = true → g1 ≠ "" → digits g2 = true → g2 ≠ "" →
  key_version (g1 +:+ "." +:+ g2) = (a ← Py.int g1; b ← Py.int g2; Some (a, b)).
Proof.
  intros H1 N1 H2 N2. unfold key_version.
  change (g1 +:+ "." +:+ g2) with (g1 +:+ String "." g2).
  rewrite (split_digits_dot _ _ H1), (split_digits _ H2). done.
Qed.

(** The key the request is looked up under reads back as the request. *)
Lemma key_version_str major minor :
  key_version (Py.str major +:+ "." +:+ Py.str minor) = Some (major, minor).
Proof.
  rewrite key_version_digits by auto using digits_str, str_nonempty.
  by rewrite !int_str.
Qed.

(** ** The catalog and the search for a fallback *)

Lemma append_empty_r s : s +:+ "" = s.
Proof.
  induction s as [|c s IH]; [done|].
  change (String c (s +:+ "") = String c s). by rewrite IH.
Qed.

Lemma short_ver_digits g1 g2 tail :
  digits g1 = true → digits g2 = true →
  tail = "" ∨ (∃ g3, tail = "." +:+ g3) →
  short_ver (g1 +:+ "." +:+ g2 +:+ tail) = g1 +:+ "." +:+ g2.
Proof.
  intros H1 H2 Ht. unfold short_ver.
  change (g1 +:+ "." +:+ g2 +:+ tail) with (g1 +:+ String "." (g2 +:+ tail)).
  rewrite (split_digits_dot _ _ H1).
  destruct Ht as [-> | [g3 ->]].
  - rewrite append_empty_r.
    rewrite (split_digits _ H2). done.
  - change (g2 +:+ "." +:+ g3) with (g2 +:+ String "." g3).
    rewrite (split_digits_dot _ _ H2).
    destruct (Py.split "." g3); done.
Qed.

(** The short version of a folder that matches is a well-formed key. *)
Lemma cpython_here_key s ver :
  Re.cpython_here s = Some ver → is_Some (key_version (short_ver ver)).
Proof.
  unfold Re.cpython_here. destruct (Py.startswith "cpython-" s); [|done].
  destruct (Re.major_minor _) as [[[g1 g2] r]|] eqn:E; [|done].
  simpl. intros [= <-].
  apply major_minor_spec in E as (H1 & N1 & H2 & N2 & _).
  rewrite short_ver_digits; try done.
  - rewrite key_version_digits by done.
    destruct (int_digits _ H1 N1) as [a ->], (int_digits _ H2 N2) as [b ->].
    simpl. eauto.
  - destruct (Re.patch r); eauto.
Qed.

Lemma search_cpython_key s ver :
  Re.search_cpython s = Some ver → is_Some (key_version (short_ver ver)).
Proof.
  induction s as [|c s IH]; simpl.
  - done.
  - destruct (Re.cpython_here (String c s)) eqn:E.
    + intros [= <-]. by eapply cpython_here_key.
    + apply IH.
Qed.

Lemma scan_folders_wf folders m : keys_wf m → keys_wf (scan_folders folders m).
Proof.
  revert m. induction folders as [|[name tree] folders IH]; simpl; intros m Hm; [done|].
  destruct (Re.search_cpython name) as [ver|] eqn:E; [|by apply IH].
  apply IH. apply map_Forall_insert_2; [|done]. by eapply search_cpython_key.
Qed.

(** Every key of a catalog the method builds splits into two numbers, so
    the loop over the catalog does not raise. *)
Lemma available_versions_wf env : keys_wf (available_versions env).
Proof.
  unfold available_versions. case_decide.
  - unfold linux_versions, keys_wf.
    repeat (apply map_Forall_insert_2; [by vm_compute; eauto|]).
    apply map_Forall_empty.
  - destruct (uv_roaming env); [|apply map_Forall_empty].
    apply scan_folders_wf, map_Forall_empty.
Qed.

Lemma elem_of_sorted_reverse m k v :
  (k, v) ∈ sorted_reverse m ↔ m !! k = Some v.
Proof.
  unfold sorted_reverse. rewrite merge_sort_Permutation.
  apply elem_of_map_to_list.
Qed.

(** What the loop returns on well-formed keys: an item below the request,
    or nothing when no item is below it. *)
Lemma first_lower_spec major minor items :
  Forall (λ kv, is_Some (key_version kv.1)) items →
  (∃ kv v, first_lower major minor items = Ret (Some kv) ∧ kv ∈ items ∧
           key_version kv.1 = Some v ∧ lower v major minor = true) ∨
  (first_lower major minor items = Ret None ∧
   ∀ kv v, kv ∈ items → key_version kv.1 = Some v → lower v major minor = false).
Proof.
  induction 1 as [|[k i] items [v Hv] _ IH]; simpl.
  - right. split; [done|]. intros ?? []%elem_of_nil.
  - simpl in Hv. rewrite Hv. destruct (lower v major minor) eqn:Hl.
    + left. exists (k, i), v. repeat split; try done. by left.
    + destruct IH as [(kv & v' & -> & Hin & Hk & Hlow) | [-> Hall]].
      * left. exists kv, v'. repeat split; try done. by right.
      * right. split; [done|]. intros kv v' [->|Hin]%elem_of_cons Hk.
        -- simpl in Hk. congruence.
        -- eauto.
Qed.

(** The items come out in descending order of their keys. *)
Lemma sorted_reverse_sorted m : Sorted key_ge (sorted_reverse m).
Proof.
  assert (Total key_ge) by (intros x y; unfold key_ge; apply (total String.le)).
  apply Sorted_merge_sort. done.
Qed.

Lemma sorted_reverse_wf env :
  Forall (λ kv, is_Some (key_version kv.1)) (sorted_reverse (available_versions env)).
Proof.
  apply Forall_forall. intros [k v] Hin%elem_of_sorted_reverse.
  by apply (available_versions_wf env k v).
Qed.

(** ** Resolution *)

Lemma parse_request_None r :
  parse_request r = None ↔ Re.match_version r = None.
Proof.
  unfold parse_request. split.
  - destruct (Re.match_version r) as [[[g1 g2] p]|] eqn:E; [|done].
    destruct (match_version_ints _ _ _ _ E) as (a & b & -> & ->). done.
  - by intros ->.
Qed.

(** The method on a request that parses. *)
Lemma find_best_parsed env r major minor :
  parse_request r = Some (major, minor) →
  find_best_python_version env r = resolve env r major minor.
Proof.
  unfold parse_request, find_best_python_version.
  destruct (Re.match_version r) as [[[g1 g2] p]|]; [|done].
  destruct (Py.int g1) as [a|]; [|done]. destruct (Py.int g2) as [b|]; [|done].
  simpl. by intros [= -> ->].
Qed.

Lemma lower_at_or_below v major minor :
  lower v major minor = true → at_or_below v major minor = true.
Proof. unfold at_or_below. by intros ->. Qed.

Lemma at_or_below_self major minor : at_or_below (major, minor) major minor = true.
Proof. unfold at_or_below, lower. simpl. rewrite !N.eqb_refl. by rewrite orb_true_r. Qed.

(** C5. A request whose [major.minor] key is in the catalog resolves to
    that entry of the catalog, an exact match, and the whole state is left
    as it was: no FallbackRecord is created or modified. *)
Theorem exact_match_returns_entry env r major minor v_info st :
  parse_request r = Some (major, minor) →
  available_versions env !! short_key major minor = Some v_info →
  find_best_python_version env r st
  = (Ret (Some (short_key major minor), Some (Tuple v_info)), st).
Proof.
  intros Hr Hk. rewrite (find_best_parsed _ _ _ _ Hr).
  unfold resolve. by rewrite Hk.
Qed.

Lemma exact_match_returns_entry_witness :
  find_best_python_version (Scenario.machine "linux" "3.12" []) "3.12" Scenario.warm
  = (Ret (Some "3.12", Some (Tuple ("3.12.7", Some "20241016"))), Scenario.warm).
Proof.
  apply (exact_match_returns_entry (Scenario.machine "linux" "3.12" []) "3.12" 3 12).
  - reflexivity.
  - vm_compute. reflexivity.
Defined.

(** When the catalog has no entry at or below the request, the request is
    not a key of it and the loop finds nothing. *)
Lemma nothing_below env major minor :
  (∀ k i v, available_versions env !! k = Some i → key_version k = Some v →
            at_or_below v major minor = false) →
  available_versions env !! short_key major minor = None ∧
  first_lower major minor (sorted_reverse (available_versions env)) = Ret None.
Proof.
  intros Hnone. split.
  - destruct (available_versions env !! short_key major minor) as [i|] eqn:E; [|done].
    specialize (Hnone _ _ _ E (key_version_str major minor)).
    by rewrite at_or_below_self in Hnone.
  - destruct (first_lower_spec major minor _ (sorted_reverse_wf env))
      as [([k i] & v & _ & Hin & Hk & Hlow) | [-> _]]; [|done].
    apply elem_of_sorted_reverse in Hin.
    specialize (Hnone _ _ _ Hin Hk).
    apply lower_at_or_below in Hlow. congruence.
Qed.

(** C6. For a well-formed request such that no entry of the catalog is at
    or below it, the method returns [(None, None)], the unresolved outcome,
    and the state is left as it was: a FallbackRecord that is there stays
    unchanged. *)
Theorem unresolved_when_nothing_at_or_below env r major minor st :
  parse_request r = Some (major, minor) →
  (∀ k i v, available_versions env !! k = Some i → key_version k = Some v →
            at_or_below v major minor = false) →
  find_best_python_version env r st = (Ret (None, None), st).
Proof.
  intros Hr Hnone. rewrite (find_best_parsed _ _ _ _ Hr).
  destruct (nothing_below _ _ _ Hnone) as [Hk Hl].
  unfold resolve. by rewrite Hk, Hl.
Qed.

(** The hypothesis of C6, checked over a catalog key by key. *)
Lemma none_at_or_below_check (m : gmap string ver_info) major minor :
  map_Forall (λ k _, Is_true (none_at_or_below_b major minor k)) m →
  ∀ k i v, m !! k = Some i → key_version k = Some v →
           at_or_below v major minor = false.
Proof.
  intros Hall k i v Hk Hv. specialize (Hall k i Hk). simpl in Hall.
  unfold none_at_or_below_b in Hall. rewrite Hv in Hall.
  by apply negb_prop_elim, Is_true_false in Hall.
Qed.

Lemma unresolved_when_nothing_at_or_below_witness :
  find_best_python_version (Scenario.machine "linux" "3.9" []) "3.9.2" Scenario.warm
  = (Ret (None, None), Scenario.warm).
Proof.
  apply (unresolved_when_nothing_at_or_below
           (Scenario.machine "linux" "3.9" []) "3.9.2" 3 9).
  - reflexivity.
  - apply none_at_or_below_check. compute_done.
Defined.

(** C8. Two requests with the same major and minor get the same answer;
    and a request, with or without a patch component, whose [major.minor]
    key is in the catalog is an exact match: it gets the entry of the
    catalog, full version included, and the state is left as it was. *)
Theorem resolution_depends_on_major_minor env r1 r2 major minor st :
  parse_request r1 = Some (major, minor) →
  parse_request r2 = Some (major, minor) →
  (find_best_python_version env r1 st).1 = (find_best_python_version env r2 st).1 ∧
  (∀ v_info, available_versions env !! short_key major minor = Some v_info →
     find_best_python_version env r1 st
     = (Ret (Some (short_key major minor), Some (Tuple v_info)), st)).
Proof.
  intros H1 H2. split.
  - rewrite (find_best_parsed _ _ _ _ H1), (find_best_parsed _ _ _ _ H2).
    unfold resolve.
    destruct (available_versions env !! short_key major minor); [done|].
    destruct (first_lower _ _ _) as [[[k i]|]|e]; try done.
    destruct (Py.truthy (Some k)); [|done].
    unfold bind, cache_write.
    destruct (cache st) as [m|]; [|done].
    destruct (m !! fallback_file env) as [[]|]; done.
  - intros v_info Hk. rewrite (find_best_parsed _ _ _ _ H1).
    unfold resolve. by rewrite Hk.
Qed.

Lemma resolution_depends_on_major_minor_witness :
  (find_best_python_version (Scenario.machine "linux" "3.12" []) "3.12.1" Scenario.warm).1
  = (find_best_python_version (Scenario.machine "linux" "3.12" []) "3.12" Scenario.warm).1.
Proof.
  apply (resolution_depends_on_major_minor
           (Scenario.machine "linux" "3.12" []) "3.12.1" "3.12" 3 12);
    reflexivity.
Defined.

(** C2, as the code has it. A request that the pattern does not match comes
    back as it is, as the version and as the information on it; nothing is
    written. *)
Theorem unparsed_request_comes_back env r st :
  Re.match_version r = None →
  find_best_python_version env r st = (Ret (Some r, Some (Str r)), st).
Proof. intros Hr. unfold find_best_python_version. by rewrite Hr. Qed.

Lemma unparsed_request_comes_back_witness :
  find_best_python_version (Scenario.machine "linux" "abc" []) "abc" Scenario.warm
  = (Ret (Some "abc", Some (Str "abc")), Scenario.warm).
Proof.
  apply (unparsed_request_comes_back (Scenario.machine "linux" "abc" []) "abc").
  reflexivity.
Defined.

(** C2 as stated fails: ['abc'] is not parsed, and what comes back is not
    the unresolved outcome [(None, None)] but a version, ['abc']. *)
Lemma unparsed_request_not_unresolved :
  Re.match_version "abc" = None ∧
  (find_best_python_version (Scenario.machine "linux" "abc" []) "abc" Scenario.warm).1
  ≠ Ret (None, None).
Proof. split; [reflexivity | vm_compute; discriminate]. Qed.

(** What a fallback is, in general: an entry of the catalog below the
    request, and a FallbackRecord that starts with the request as it was
    given. *)
Lemma fallback_is_lower_entry env r major minor st k i st' :
  parse_request r = Some (major, minor) →
  available_versions env !! short_key major minor = None →
  find_best_python_version env r st = (Ret (Some k, Some (Tuple i)), st') →
  available_versions env !! k = Some i ∧
  (∃ v, key_version k = Some v ∧ lower v major minor = true) ∧
  cache_lookup (fallback_file env) st'
  = Some (File (fallback_record r k (now env))).
Proof.
  intros Hr Hk. rewrite (find_best_parsed _ _ _ _ Hr). unfold resolve. rewrite Hk.
  destruct (first_lower_spec major minor _ (sorted_reverse_wf env))
    as [([k' i'] & v & -> & Hin & Hkv & Hlow) | [-> _]]; [|done].
  destruct (Py.truthy (Some k')); [|done].
  unfold bind, cache_write, cache_lookup.
  destruct (cache st) as [m|]; [|done].
  destruct (m !! fallback_file env) as [[]|] eqn:E; try done;
    intros [= <- <- <-]; simpl;
    (split; [by apply elem_of_sorted_reverse|]);
    (split; [by eauto|]); by rewrite lookup_insert_eq.
Qed.

(** C1 fails on the code. With the runtimes 3.9 and 3.12 installed and 3.13
    requested for Windows, the catalog holds 3.12, which is below the
    request and above 3.9; the method answers 3.9, because the items are
    sorted as strings and ['3.9'] comes after ['3.12']. The record it
    writes starts with the request. *)
Theorem fallback_follows_string_order :
  let env := Scenario.machine "windows" "3.13" Scenario.two_runtimes in
  parse_request "3.13" = Some (3, 13) ∧
  available_versions env !! "3.13" = None ∧
  available_versions env !! "3.12" = Some ("3.12.7", None) ∧
  key_version "3.12" = Some (3, 12) ∧ lower (3, 12) 3 13 = true ∧
  key_version "3.9" = Some (3, 9) ∧ lower (3, 9) 3 12 = true ∧
  sorted_reverse (available_versions env)
  = [("3.9", ("3.9.18", None)); ("3.12", ("3.12.7", None))] ∧
  (find_best_python_version env "3.13" Scenario.warm).1
  = Ret (Some "3.9", Some (Tuple ("3.9.18", None))) ∧
  cache_lookup (fallback_file env)
    (find_best_python_version env "3.13" Scenario.warm).2
  = Some (File "3.13|3.9|2024-05-01T12:00:00").
Proof. vm_compute. repeat split; reflexivity. Qed.

(** ** Reasoning about methods *)

Lemma bind_Ret {A B} (c : M A) (k : A → M B) st b st1 :
  bind c k st = (Ret b, st1) →
  ∃ a st', c st = (Ret a, st') ∧ k a st' = (Ret b, st1).
Proof.
  unfold bind. destruct (c st) as [[a|e] st'] eqn:E; [eauto | done].
Qed.

Lemma bind_run {A B} (c : M A) (k : A → M B) st a st' :
  c st = (Ret a, st') → bind c k st = k a st'.
Proof. unfold bind. by intros ->. Qed.

Lemma cache_lookup_set_deploy name d st :
  cache_lookup name (set_deploy d st) = cache_lookup name st.
Proof. done. Qed.

Lemma cache_exists_set_deploy name d st :
  cache_exists name (set_deploy d st) = cache_exists name st.
Proof. done. Qed.

Lemma cache_exists_true name st :
  cache_exists name st = true ↔ is_Some (cache_lookup name st).
Proof. unfold cache_exists. apply bool_decide_eq_true. Qed.

Lemma cache_exists_false name st :
  cache_exists name st = false ↔ cache_lookup name st = None.
Proof.
  unfold cache_exists. rewrite bool_decide_eq_false, <- eq_None_not_Some. done.
Qed.

(** ** The artifact cache *)

(** A call of [download_uv] that returns [True] leaves the tool binary in
    the cache, and has staged it. *)
Lemma download_uv_fills env st st1 :
  download_uv env st = (Ret true, st1) →
  ∃ data, cache_lookup (uv_cache (target_os (server env))) st1 = Some (File data) ∧
          (target_os (server env) = "windows" → is_Some (uv_download_url (server env))).
Proof.
  unfold download_uv. intros H.
  apply bind_Ret in H as (uv_url & s1 & Hurl & H).
  apply bind_Ret in H as (present & s2 & _ & H).
  apply bind_Ret in H as (filled & s3 & _ & H).
  destruct filled; [|done].
  apply bind_Ret in H as ([] & s4 & Hcopy & H).
  injection H as <-. unfold copy_to_deploy in Hcopy.
  destruct (cache_lookup _ s3) as [[data|]|] eqn:E; try done.
  injection Hcopy as <-. exists data. split; [done|].
  intros Hos. rewrite decide_True in Hurl by done.
  destruct (uv_download_url (server env)); [eauto | done].
Qed.

(** With the tool binary in the cache, [download_uv] only stages it. *)
Lemma download_uv_cached env st data :
  cache_lookup (uv_cache (target_os (server env))) st = Some (File data) →
  (target_os (server env) = "windows" → is_Some (uv_download_url (server env))) →
  download_uv env st
  = (Ret true,
     set_deploy (<[uv_filename (target_os (server env)) := File data]> (deploy st)) st).
Proof.
  intros Hc Hurl. unfold download_uv.
  assert (cache_exists (uv_cache (target_os (server env))) st = true) as Hex
    by (apply cache_exists_true; eauto).
  destruct (decide (target_os (server env) = "windows")) as [Hos|Hos].
  - destruct (Hurl Hos) as [url ->].
    unfold bind, ret, get, copy_to_deploy. rewrite Hex. simpl. by rewrite Hc.
  - unfold bind, ret, get, copy_to_deploy. rewrite Hex. simpl. by rewrite Hc.
Qed.

(** A call of the Linux runtime step that gives a path has the runtime in
    the cache. *)
Lemma ensure_python_linux_fills env best full build st python_path st1 :
  ensure_python_linux env best full build st = (Ret (Some python_path), st1) →
  ∃ entry, cache_lookup (python_cache best) st1 = Some entry ∧
           python_path = choose_python_path entry.
Proof.
  unfold ensure_python_linux. intros H.
  apply bind_Ret in H as (present & s1 & _ & H).
  apply bind_Ret in H as (ok & s2 & _ & H).
  destruct ok; [|done].
  apply bind_Ret in H as (entry & s3 & Hget & H).
  injection Hget as <- <-.
  destruct (cache_lookup (python_cache best) s2) as [entry|] eqn:E; [|done].
  injection H as <- <-. eauto.
Qed.

(** With the runtime in the cache, the step reads it and changes nothing. *)
Lemma ensure_python_linux_cached env best full build st entry :
  cache_lookup (python_cache best) st = Some entry →
  ensure_python_linux env best full build st
  = (Ret (Some (choose_python_path entry)), st).
Proof.
  intros Hc. unfold ensure_python_linux.
  assert (cache_exists (python_cache best) st = true) as Hex
    by (apply cache_exists_true; eauto).
  unfold bind, ret, get. rewrite Hex. simpl. by rewrite Hc.
Qed.

(** C7. The cache is idempotent, for the tool binary ([download_uv], keyed
    by the target) and for the runtime (the Linux step of [copy_python],
    keyed by the version). After a call that succeeded, the artifact is at
    its place in the cache, and a second call for the same key, started
    with any staging directory, gives the same result from the same place,
    fetches nothing ([fetched] is as it was) and leaves the cache as it
    was. *)
Theorem cache_is_idempotent env :
  (∀ st st1, download_uv env st = (Ret true, st1) →
     ∃ data,
       cache_lookup (uv_cache (target_os (server env))) st1 = Some (File data) ∧
       ∀ d, ∃ st2,
         download_uv env (set_deploy d st1) = (Ret true, st2) ∧
         fetched st2 = fetched st1 ∧ cache st2 = cache st1 ∧
         deploy st2 !! uv_filename (target_os (server env)) = Some (File data)) ∧
  (∀ best full build st python_path st1,
     ensure_python_linux env best full build st = (Ret (Some python_path), st1) →
     is_Some (cache_lookup (python_cache best) st1) ∧
     ∀ d, ensure_python_linux env best full build (set_deploy d st1)
          = (Ret (Some python_path), set_deploy d st1)).
Proof.
  split.
  - intros st st1 H. destruct (download_uv_fills _ _ _ H) as (data & Hc & Hurl).
    exists data. split; [done|]. intros d. eexists. split.
    + apply download_uv_cached; [by rewrite cache_lookup_set_deploy | done].
    + simpl. by rewrite lookup_insert_eq.
  - intros best full build st python_path st1 H.
    destruct (ensure_python_linux_fills _ _ _ _ _ _ _ H) as (entry & Hc & ->).
    split; [eauto|]. intros d.
    by apply ensure_python_linux_cached.
Qed.

Lemma cache_is_idempotent_witness :
  (let env := Scenario.online "windows" "3.12" in
   let st1 := (download_uv env Scenario.cold).2 in
   ∃ data,
     cache_lookup "uv.exe_windows" st1 = Some (File data) ∧
     ∀ d, ∃ st2,
       download_uv env (set_deploy d st1) = (Ret true, st2) ∧
       fetched st2 = fetched st1 ∧ cache st2 = cache st1 ∧
       deploy st2 !! "uv.exe" = Some (File data)) ∧
  (let env := Scenario.online "linux" "3.12" in
   let st1 := (ensure_python_linux env "3.12" "3.12.7" (Some "20241016") Scenario.warm).2 in
   is_Some (cache_lookup "python-3.12-linux" st1) ∧
   ∀ d, ensure_python_linux env "3.12" "3.12.7" (Some "20241016") (set_deploy d st1)
        = (Ret (Some (Dir {["bin/python3" := "ELF"]})), set_deploy d st1)).
Proof.
  split.
  - apply (proj1 (cache_is_idempotent (Scenario.online "windows" "3.12")) Scenario.cold).
    vm_compute. reflexivity.
  - apply (proj2 (cache_is_idempotent (Scenario.online "linux" "3.12"))
             "3.12" "3.12.7" (Some "20241016") Scenario.warm).
    vm_compute. reflexivity.
Defined.

(** ** What stays in the cache *)

Section keeps.
Context (name : string).

Lemma keeps_ret {A} (a : A) : keeps name (ret a).
Proof. by intros st. Qed.

Lemma keeps_raise {A} e : keeps name (raise (A:=A) e).
Proof. by intros st. Qed.

Lemma keeps_get {A} (f : State → A) : keeps name (get f).
Proof. by intros st. Qed.

Lemma keeps_lift {A} (r : result A) : keeps name (lift r).
Proof. destruct r; by intros st. Qed.

Lemma keeps_bind {A B} (c : M A) (k : A → M B) :
  keeps name c → (∀ a, keeps name (k a)) → keeps name (bind c k).
Proof.
  intros Hc Hk st Hst. unfold bind. specialize (Hc st Hst).
  destruct (c st) as [[a|e] st'] eqn:E; simpl in *; [by apply Hk | done].
Qed.

Lemma keeps_try_except {A} (c h : M A) :
  keeps name c → keeps name h → keeps name (try_except c h).
Proof.
  intros Hc Hh st Hst. unfold try_except. specialize (Hc st Hst).
  destruct (c st) as [[a|e] st'] eqn:E; simpl in *; [done | by apply Hh].
Qed.

Lemma keeps_with_staging {A} (c : M A) : keeps name c → keeps name (with_staging c).
Proof.
  intros Hc st Hst. unfold with_staging.
  specialize (Hc (set_deploy ∅ st) Hst).
  by destruct (c (set_deploy ∅ st)) as [r st'].
Qed.

Lemma keeps_modify_deploy (f : State → gmap string node) :
  keeps name (modify (λ st, set_deploy (f st) st)).
Proof. by intros st. Qed.

Lemma keeps_modify_packages (f : State → gmap string (gmap string node)) :
  keeps name (modify (λ st, set_packages (f st) st)).
Proof. by intros st. Qed.

Lemma keeps_log_fetch url : keeps name (modify (log_fetch url)).
Proof. by intros st. Qed.

Lemma keeps_cache_mkdir : keeps name cache_mkdir.
Proof.
  intros st Hst. unfold cache_mkdir, modify. simpl.
  destruct (cache st) eqn:E; [done|].
  unfold cache_lookup in Hst. rewrite E in Hst. by destruct Hst.
Qed.

Lemma keeps_cache_write name' data : keeps name (cache_write name' data).
Proof.
  intros st [n Hn]. unfold cache_write, cache_lookup in *.
  destruct (cache st) as [m|] eqn:Ec; simpl in *; [|done].
  destruct (m !! name') as [[]|] eqn:E; simpl; rewrite ?Ec; simpl; eauto;
    destruct (decide (name' = name)) as [->|];
    rewrite ?lookup_insert_eq, ?lookup_insert_ne by done; eauto.
Qed.

Lemma keeps_cache_read name' : keeps name (cache_read name').
Proof.
  intros st Hst. unfold cache_read. by destruct (cache_lookup name' st) as [[]|].
Qed.

Lemma keeps_cache_unlink name' : name' ≠ name → keeps name (cache_unlink name').
Proof.
  intros Hne st [n Hn]. unfold cache_unlink, cache_lookup in *.
  destruct (cache st) as [m|] eqn:Ec; simpl in *; [|done].
  destruct (m !! name') as [[]|] eqn:E; simpl; rewrite ?Ec; simpl; eauto.
  rewrite lookup_delete_ne by done. eauto.
Qed.

Lemma keeps_rmtree name' :
  name' ≠ name → keeps name (modify (λ st, set_cache (delete name' <$> cache st) st)).
Proof.
  intros Hne st [n Hn]. unfold modify, cache_lookup in *. simpl.
  destruct (cache st) as [m|] eqn:Ec; simpl in *; [|done].
  rewrite lookup_delete_ne by done. eauto.
Qed.

Lemma keeps_extractall members name' : keeps name (extractall members name').
Proof.
  intros st [n Hn]. unfold extractall, cache_lookup in *.
  destruct (cache st) as [m|] eqn:Ec; simpl in *; [|done].
  case_decide; simpl; rewrite ?Ec; simpl; [eauto|].
  destruct (m !! name') as [[]|] eqn:E; simpl; rewrite ?Ec; simpl; eauto;
    destruct (decide (name' = name)) as [->|];
    rewrite ?lookup_insert_eq, ?lookup_insert_ne by done; eauto.
Qed.

Lemma keeps_copy_to_deploy src dst : keeps name (copy_to_deploy src dst).
Proof.
  intros st Hst. unfold copy_to_deploy. by destruct (cache_lookup src st) as [[]|].
Qed.

Lemma keeps_copytree_to_deploy python_path dst :
  keeps name (copytree_to_deploy python_path dst).
Proof.
  intros st Hst. unfold copytree_to_deploy.
  by destruct python_path as [[]|], (deploy st !! dst).
Qed.

Lemma keeps_write_deploy n data : keeps name (write_deploy n data).
Proof. by intros st. Qed.

Lemma keeps_fetch env url name' : keeps name (fetch env url name').
Proof.
  unfold fetch. apply keeps_bind; [apply keeps_log_fetch|]. intros _.
  destruct (urlretrieve env url); [apply keeps_cache_write | apply keeps_raise].
Qed.

End keeps.

Create HintDb keeps.
#[local] Hint Resolve keeps_ret keeps_raise keeps_get keeps_lift keeps_bind
  keeps_try_except keeps_with_staging keeps_modify_deploy keeps_modify_packages
  keeps_log_fetch keeps_cache_mkdir keeps_cache_write keeps_cache_read
  keeps_rmtree keeps_extractall keeps_copy_to_deploy keeps_copytree_to_deploy
  keeps_write_deploy keeps_fetch keeps_cache_unlink : keeps.

(** Resolution never removes anything from the cache. *)
Lemma keeps_find_best_python_version name env r :
  keeps name (find_best_python_version env r).
Proof.
  unfold find_best_python_version.
  destruct (Re.match_version r) as [[[g1 g2] p]|]; [|auto with keeps].
  destruct (Py.int g1), (Py.int g2); auto with keeps.
  unfold resolve. destruct (_ !! _); [auto with keeps|].
  destruct (first_lower _ _ _) as [[[k i]|]|]; auto with keeps.
  destruct (Py.truthy _); auto with keeps.
Qed.

(** The names [download_uv] removes are not that of a FallbackRecord. *)
Lemma keeps_download_uv env env' : keeps (fallback_file env') (download_uv env).
Proof.
  unfold download_uv.
  apply keeps_bind.
  { case_decide; [destruct (uv_download_url _)|]; auto with keeps. }
  intros url. apply keeps_bind; [auto with keeps|]. intros present.
  apply keeps_bind.
  - destruct present; [auto with keeps|].
    apply keeps_bind; [auto with keeps|]. intros _. case_decide.
    + apply keeps_bind; [|auto with keeps].
      unfold download_uv_windows.
      apply keeps_bind; [auto with keeps|]. intros _.
      apply keeps_bind; [auto with keeps|]. intros zip.
      destruct (unzip env zip ≫= _); [|auto with keeps].
      repeat (apply keeps_bind; [|intros _]); auto with keeps;
        apply keeps_cache_unlink; done.
    + unfold download_uv_linux.
      apply keeps_bind; [auto with keeps|]. intros _.
      apply keeps_bind; [auto with keeps|]. intros tar.
      destruct (untar env tar); [|auto with keeps].
      apply keeps_bind; [auto with keeps|]. intros _.
      apply keeps_bind; [auto with keeps|]. intros temp_dir.
      destruct (match temp_dir with Some (Dir tree) => _ | _ => None end) as [[? data]|];
        [|auto with keeps].
      repeat (apply keeps_bind; [|intros _]); auto with keeps.
  - intros []; auto with keeps.
Qed.

Lemma keeps_create_batch_scripts name env v : keeps name (create_batch_scripts env v).
Proof.
  unfold create_batch_scripts.
  apply keeps_bind; [auto with keeps|]. intros staged.
  case_decide; auto with keeps.
Qed.

Lemma keeps_ensure_python_linux env env' best full build :
  keeps (fallback_file env') (ensure_python_linux env best full build).
Proof.
  unfold ensure_python_linux.
  apply keeps_bind; [auto with keeps|]. intros present.
  apply keeps_bind.
  - destruct present; [auto with keeps|].
    apply keeps_try_except; [|auto with keeps].
    apply keeps_bind; [auto with keeps|]. intros _.
    apply keeps_bind; [auto with keeps|]. intros tar.
    destruct (untar env tar); [|auto with keeps].
    apply keeps_bind; [auto with keeps|]. intros _.
    apply keeps_bind; [|auto with keeps].
    apply keeps_cache_unlink. done.
  - intros []; [|auto with keeps].
    apply keeps_bind; [auto with keeps|]. intros [entry|]; auto with keeps.
Qed.

(** ** The FallbackRecord across [copy_python] *)

(** With a record on disk, [copy_python] resolves the request that the
    record holds. *)
Lemma copy_python_recorded env v st text r used ts :
  cache_lookup (fallback_file env) st = Some (File text) →
  parse_fallback text = Some (r, used, ts) →
  copy_python env v st = copy_python_from env r st.
Proof.
  intros Hc Hp. unfold copy_python, bind at 1, get.
  assert (cache_exists (fallback_file env) st = true) as ->
    by (apply cache_exists_true; eauto).
  unfold bind at 1, bind at 1, cache_read. rewrite Hc, Hp. done.
Qed.

(** [cache_unlink] removes the entry, or raises and changes nothing. *)
Lemma cache_unlink_spec name st :
  (∃ st', cache_unlink name st = (Ret tt, st') ∧ cache_lookup name st' = None) ∨
  (∃ e, cache_unlink name st = (Exc e, st)).
Proof.
  unfold cache_unlink, cache_lookup. destruct (cache st) as [m|] eqn:Ec; [|eauto].
  destruct (m !! name) as [[]|]; eauto.
  left. eexists. split; [done|]. simpl. apply lookup_delete_eq.
Qed.

(** The record goes only when the version copied is the one resolved for,
    and then the method returns [True]. *)
Lemma finish_copy_record env python_path best_version python_version st res st2 :
  finish_copy env python_path best_version python_version st = (res, st2) →
  is_Some (cache_lookup (fallback_file env) st) →
  is_Some (cache_lookup (fallback_file env) st2) ∨
  (res = Ret true ∧ best_version = python_version).
Proof.
  intros H Hst. revert H. unfold finish_copy, bind at 1.
  pose proof (keeps_copytree_to_deploy (fallback_file env) python_path
                ("python-" +:+ best_version) st Hst) as Hk.
  destruct (copytree_to_deploy _ _ st) as [[[]|e] s1]; simpl in Hk;
    [|intros [= <- <-]; by left].
  unfold bind at 1, get.
  assert (cache_exists (fallback_file env) s1 = true) as ->
    by by apply cache_exists_true.
  case_decide as Hv.
  - destruct (cache_unlink_spec (fallback_file env) s1) as [(s2 & Hu & _)|[e Hu]];
      unfold bind; rewrite Hu; simpl; intros [= <- <-]; [by right | by left].
  - intros [= <- <-]. by left.
Qed.

(** When the version copied is the one resolved for and the method returns
    [True], the record is gone. *)
Lemma finish_copy_deletes env python_path python_version st st2 :
  finish_copy env python_path python_version python_version st = (Ret true, st2) →
  cache_lookup (fallback_file env) st2 = None.
Proof.
  unfold finish_copy, bind at 1.
  destruct (copytree_to_deploy _ _ st) as [[[]|e] s1]; [|done].
  unfold bind at 1, get. rewrite decide_True by done.
  destruct (cache_exists (fallback_file env) s1) eqn:Hex.
  - destruct (cache_unlink_spec (fallback_file env) s1) as [(s2 & Hu & Hn)|[e Hu]];
      unfold bind; rewrite Hu; simpl; [|done]. by intros [= <-].
  - unfold bind, ret. intros [= <-]. by apply cache_exists_false.
Qed.

(** [copy_python_from], cut at the choice of [python_path]. *)
Lemma copy_python_from_unfold env python_version st :
  copy_python_from env python_version st =
  match find_best_python_version env python_version st with
  | (Exc e, s1) => (Exc e, s1)
  | (Ret (best_version, version_info), s1) =>
      if negb (Py.truthy best_version) then (Ret false, s1)
      else
        match locate_python env (default "" best_version) version_info s1 with
        | (Exc e, s2) => (Exc e, s2)
        | (Ret None, s2) => (Ret false, s2)
        | (Ret (Some p), s2) =>
            finish_copy env (Some p) (default "" best_version) python_version s2
        end
  end.
Proof.
  unfold copy_python_from, bind at 1.
  destruct (find_best_python_version env python_version st) as [[[bv vi]|e] s1]; [|done].
  destruct (negb (Py.truthy bv)); [done|].
  unfold bind at 1.
  destruct (locate_python _ _ _ s1) as [[[p|]|e] s2]; done.
Qed.

(** The step that finds the runtime keeps the record. *)
Lemma keeps_locate_python env best_version version_info :
  keeps (fallback_file env) (locate_python env best_version version_info).
Proof.
  unfold locate_python. case_decide; [auto with keeps|].
  destruct (unpack_info version_info) as [[full build]|e]; [|auto with keeps].
  apply keeps_ensure_python_linux.
Qed.

Lemma truthy_default (x : option string) :
  Py.truthy x = true → x = Some (default "" x).
Proof. by destruct x as [[]|]. Qed.

(** The record across [copy_python_from]: it is still there afterwards,
    unless the method returned [True] after resolving to the very version
    it was called with. *)
Lemma copy_python_from_record env r st res st2 :
  copy_python_from env r st = (res, st2) →
  is_Some (cache_lookup (fallback_file env) st) →
  is_Some (cache_lookup (fallback_file env) st2) ∨
  (res = Ret true ∧
   ∃ version_info, (find_best_python_version env r st).1 = Ret (Some r, version_info)).
Proof.
  intros H Hst. revert H. rewrite copy_python_from_unfold.
  pose proof (keeps_find_best_python_version (fallback_file env) env r st Hst) as H1.
  destruct (find_best_python_version env r st) as [[[bv vi]|e] s1]; simpl in H1;
    [|intros [= <- <-]; by left].
  destruct (Py.truthy bv) eqn:Ht; simpl; [|intros [= <- <-]; by left].
  pose proof (keeps_locate_python env (default "" bv) vi s1 H1) as H2.
  destruct (locate_python _ _ _ s1) as [[[p|]|e] s2]; simpl in H2;
    [|intros [= <- <-]; by left..].
  intros H. destruct (finish_copy_record _ _ _ _ _ _ _ H H2) as [?|[-> Hv]];
    [by left|].
  right. split; [done|]. exists vi.
  rewrite (truthy_default _ Ht). by rewrite Hv.
Qed.

(** When resolution gives the version it was asked for and the method
    returns [True], no record is left. *)
Lemma copy_python_from_deletes env r st version_info st2 :
  (find_best_python_version env r st).1 = Ret (Some r, version_info) →
  copy_python_from env r st = (Ret true, st2) →
  cache_lookup (fallback_file env) st2 = None.
Proof.
  rewrite copy_python_from_unfold.
  destruct (find_best_python_version env r st) as [[[bv vi]|e] s1]; simpl; [|done].
  intros [= -> ->]. destruct r as [|c r]; simpl; [done|].
  destruct (locate_python _ _ _ s1) as [[[p|]|e] s2]; simpl; try done.
  apply finish_copy_deletes.
Qed.

(** C4, as the code has it. With a FallbackRecord on disk whose first field
    is [r]: [copy_python] resolves [r], whatever version it is called with;
    when that resolution gives exactly [r] and [copy_python] goes on to
    return [True] (the runtime was found or downloaded, and copied), the
    record is gone afterwards; when the record is gone after [copy_python],
    the resolution gave exactly [r] and [copy_python] returned [True]; and
    [find_best_python_version], [download_uv] and [create_batch_scripts]
    leave a record where it is. *)
Theorem record_cleared_when_original_is_used env st text r used ts :
  cache_lookup (fallback_file env) st = Some (File text) →
  parse_fallback text = Some (r, used, ts) →
  (∀ v, copy_python env v st = copy_python_from env r st) ∧
  (∀ v version_info,
     (find_best_python_version env r st).1 = Ret (Some r, version_info) →
     (copy_python env v st).1 = Ret true →
     cache_lookup (fallback_file env) (copy_python env v st).2 = None) ∧
  (∀ v,
     cache_lookup (fallback_file env) (copy_python env v st).2 = None →
     (copy_python env v st).1 = Ret true ∧
     ∃ version_info,
       (find_best_python_version env r st).1 = Ret (Some r, version_info)) ∧
  (∀ v, is_Some (cache_lookup (fallback_file env)
                   (find_best_python_version env v st).2)) ∧
  is_Some (cache_lookup (fallback_file env) (download_uv env st).2) ∧
  (∀ v, is_Some (cache_lookup (fallback_file env) (create_batch_scripts env v st).2)).
Proof.
  intros Hc Hp.
  assert (is_Some (cache_lookup (fallback_file env) st)) as Hst by eauto.
  pose proof (λ v, copy_python_recorded env v st text r used ts Hc Hp) as Hre.
  split; [done|]. split; [|split; [|split; [|split]]].
  - intros v vi Hb. rewrite Hre.
    destruct (copy_python_from env r st) as [res st2] eqn:E. simpl.
    intros ->. by eapply copy_python_from_deletes.
  - intros v. rewrite Hre.
    destruct (copy_python_from env r st) as [res st2] eqn:E. simpl. intros Hn.
    destruct (copy_python_from_record _ _ _ _ _ E Hst) as [[n Hs]|?]; [congruence|done].
  - intros v. by apply keeps_find_best_python_version.
  - by apply keeps_download_uv.
  - intros v. by apply keeps_create_batch_scripts.
Qed.

Lemma record_cleared_when_original_is_used_witness :
  let env := Scenario.online "linux" "3.12" in
  (find_best_python_version env "3.13" Scenario.fell_back).1
  = Ret (Some "3.13", Some (Tuple ("3.13.0", Some "20241016"))) ∧
  (copy_python env "3.12" Scenario.fell_back).1 = Ret true ∧
  cache_lookup (fallback_file env) (copy_python env "3.12" Scenario.fell_back).2 = None.
Proof.
  split; [reflexivity|]. split; [vm_compute; reflexivity|].
  apply (proj1 (proj2 (record_cleared_when_original_is_used
           (Scenario.online "linux" "3.12") Scenario.fell_back
           "3.13|3.12|2024-04-30T08:00:00" "3.13" "3.12" "2024-04-30T08:00:00"
           ltac:(vm_compute; reflexivity) ltac:(vm_compute; reflexivity)))
         "3.12" (Some (Tuple ("3.13.0", Some "20241016")))).
  - vm_compute. reflexivity.
  - vm_compute. reflexivity.
Defined.

(** C4 as stated fails. A record asks for 3.13, the Linux table has 3.13, so
    the resolution that [copy_python] re-issues gives exactly the request;
    the runtime is not in the cache and the download fails, [copy_python]
    returns [False] before the place where the record is removed, and the
    record is still there. *)
Lemma record_survives_failed_download :
  let env := Scenario.machine "linux" "3.13" [] in
  cache_lookup (fallback_file env) Scenario.fell_back
  = Some (File "3.13|3.12|2024-04-30T08:00:00") ∧
  (find_best_python_version env "3.13" Scenario.fell_back).1
  = Ret (Some "3.13", Some (Tuple ("3.13.0", Some "20241016"))) ∧
  (copy_python env "3.13" Scenario.fell_back).1 = Ret false ∧
  cache_lookup (fallback_file env) (copy_python env "3.13" Scenario.fell_back).2
  = Some (File "3.13|3.12|2024-04-30T08:00:00").
Proof. vm_compute. repeat split; reflexivity. Qed.

(** ** The bootstrap scripts *)

(** C3 fails on the code for Windows. 3.13 is requested, only 3.12 is
    installed: the runtime staged is [python-3.12], and [setup.bat], written
    with the version requested, points into [python-3.13], a directory the
    archive does not have. The Linux branch reads the version off the
    staged directory; the Windows branch does not. *)
Theorem setup_bat_names_requested_version :
  let env := Scenario.machine "windows" "3.13" ["cpython-3.12.7-windows-x86_64-none"] in
  let out := create_deployment_package env Scenario.warm in
  let archive := default ∅ (packages out.2 !! "demo-v0.1.0-20240501.zip") in
  out.1 = Ret (Some "demo-v0.1.0-20240501.zip") ∧
  (find_best_python_version env "3.13" Scenario.warm).1
  = Ret (Some "3.12", Some (Tuple ("3.12.7", None))) ∧
  python_dirs archive = ["python-3.12"] ∧
  archive !! "python-3.13" = None ∧
  archive !! "setup.bat" = Some (File (default_setup_bat "3.13")) ∧
  default_setup_bat "3.13" =
"@echo off
echo Installation de l'environnement Python...
uv.exe venv --python python-3.13\python.exe
echo Environnement cree avec succes!
".
Proof. vm_compute. repeat split; reflexivity. Qed.

(** The same request for Linux, where 3.14 falls back to 3.13: [setup.sh]
    names the directory that was staged. *)
Example setup_sh_names_bundled_version :
  let env := Scenario.online "linux" "3.14" in
  let out := create_deployment_package env Scenario.warm in
  let archive := default ∅ (packages out.2 !! "demo-v0.1.0-20240501.zip") in
  out.1 = Ret (Some "demo-v0.1.0-20240501.zip") ∧
  python_dirs archive = ["python-3.13"] ∧
  archive !! "setup.sh" = Some (File (setup_sh "3.13")).
Proof. vm_compute. repeat split; reflexivity. Qed.

(** ** The name of the archive *)

Lemma check_below (P : N → bool) (b : N) :
  forallb P (N.of_nat <$> seq 0 (N.to_nat b)) = true → ∀ n, n < b → P n = true.
Proof.
  intros Hall n Hn. rewrite forallb_forall in Hall. apply Hall.
  apply list_elem_of_In, list_elem_of_fmap. exists (N.to_nat n).
  split; [by rewrite N2Nat.id|].
  apply elem_of_seq. lia.
Qed.

Lemma pad_ok width (b : N) n :
  forallb (pad_ok_b width) (N.of_nat <$> seq 0 (N.to_nat b)) = true → n < b →
  String.length (pad width n) = width ∧ Py.int (pad width n) = Some n.
Proof.
  intros Hall Hn. pose proof (check_below _ _ Hall n Hn) as H.
  by apply bool_decide_eq_true in H.
Qed.

(** [%Y%m%d]: four digits, two digits, two digits, which read back as the
    year, the month and the day. *)
Lemma date_str_spec t :
  year t < 10000 → month t < 13 → day t < 32 →
  ∃ y m d, date_str t = y +:+ m +:+ d ∧
    String.length y = 4%nat ∧ String.length m = 2%nat ∧ String.length d = 2%nat ∧
    Py.int y = Some (year t) ∧ Py.int m = Some (month t) ∧ Py.int d = Some (day t).
Proof.
  intros Hy Hm Hd. exists (pad 4 (year t)), (pad 2 (month t)), (pad 2 (day t)).
  destruct (pad_ok 4 10000 (year t)) as [? ?]; [by vm_compute | done |].
  destruct (pad_ok 2 13 (month t)) as [? ?]; [by vm_compute | done |].
  destruct (pad_ok 2 32 (day t)) as [? ?]; [by vm_compute | done |].
  done.
Qed.

(** What [get_project_version] answers when it answers. *)
Lemma get_project_version_spec env version :
  get_project_version env = Ret version →
  (project_entry env "pyproject.toml" = None ∧ version = "0.1.0") ∨
  (∃ bytes data,
     project_entry env "pyproject.toml" = Some (File bytes) ∧
     tomllib_load env bytes = Some data ∧
     version = match toml_project data with
               | Some (Some v) => v
               | _ => "0.1.0"
               end).
Proof.
  unfold get_project_version.
  destruct (project_entry env "pyproject.toml") as [[bytes|]|]; [|done|].
  - destruct (tomllib_load env bytes) as [data|] eqn:E; [|done].
    intros [= <-]. right. exists bytes, data. repeat split; try done.
    by destruct (toml_project data) as [[]|].
  - intros [= <-]. by left.
Qed.

Lemma with_staging_Ret {A} (body : M A) st a st' :
  with_staging body st = (Ret a, st') →
  ∃ s, body (set_deploy ∅ st) = (Ret a, s) ∧ st' = set_deploy ∅ s.
Proof.
  unfold with_staging. destruct (body _) as [r s]. intros [= -> <-]. eauto.
Qed.

(** An archive that was written carries the name computed at the start. *)
Lemma create_deployment_package_name env st name st' :
  create_deployment_package env st = (Ret (Some name), st') →
  ∃ version, get_project_version env = Ret version ∧
    name = package_name (project_name env) version (now env) ∧
    is_Some (packages st' !! name).
Proof.
  unfold create_deployment_package. intros H.
  apply bind_Ret in H as (version & s0 & Hv & H).
  exists version. destruct (get_project_version env) as [v|]; [|done].
  injection Hv as -> ->. split; [done|].
  apply with_staging_Ret in H as (s & H & ->).
  apply bind_Ret in H as ([] & s1 & _ & H).
  apply bind_Ret in H as ([] & s2 & _ & H).
  apply bind_Ret in H as (uv & s3 & _ & H).
  destruct uv; [|done]. simpl in H.
  apply bind_Ret in H as (pv & s4 & _ & H).
  apply bind_Ret in H as (python & s5 & _ & H).
  destruct python; [|done]. simpl in H.
  apply bind_Ret in H as ([] & s6 & _ & H).
  apply bind_Ret in H as (staged & s7 & _ & H).
  apply bind_Ret in H as ([] & s8 & Hm & H).
  injection H as <- <-. injection Hm as <-.
  split; [done|]. simpl. rewrite lookup_insert_eq. eauto.
Qed.

(** C9. The archive that [create_deployment_package] writes is called
    [{project}-v{version}-{YYYYMMDD}.zip]: the version is the one under
    [project.version] in the manifest, and [0.1.0] when there is no
    manifest, no [project] table or no [version] in it; the date is that
    of the clock, as four, two and two digits that read back as its year,
    month and day. *)
Theorem archive_is_named env st name st' :
  create_deployment_package env st = (Ret (Some name), st') →
  year (now env) < 10000 → month (now env) < 13 → day (now env) < 32 →
  ∃ version y m d,
    name = project_name env +:+ "-v" +:+ version +:+ "-" +:+ (y +:+ m +:+ d) +:+ ".zip" ∧
    is_Some (packages st' !! name) ∧
    ((project_entry env "pyproject.toml" = None ∧ version = "0.1.0") ∨
     (∃ bytes data,
        project_entry env "pyproject.toml" = Some (File bytes) ∧
        tomllib_load env bytes = Some data ∧
        version = match toml_project data with
                  | Some (Some v) => v
                  | _ => "0.1.0"
                  end)) ∧
    String.length y = 4%nat ∧ String.length m = 2%nat ∧ String.length d = 2%nat ∧
    Py.int y = Some (year (now env)) ∧ Py.int m = Some (month (now env)) ∧
    Py.int d = Some (day (now env)).
Proof.
  intros H Hy Hm Hd.
  apply create_deployment_package_name in H as (version & Hv & -> & Hp).
  destruct (date_str_spec (now env) Hy Hm Hd) as (y & m & d & Hds & Hrest).
  exists version, y, m, d. unfold package_name in *. rewrite Hds in *.
  split; [done|]. split; [done|]. split; [|done].
  by apply get_project_version_spec.
Qed.

(** Project [demo], version 2.1.0 in the manifest, on 2024-05-01. *)
Lemma archive_is_named_witness :
  (create_deployment_package Scenario.released Scenario.warm).1
  = Ret (Some "demo-v2.1.0-20240501.zip") ∧
  ∃ version y m d,
    "demo-v2.1.0-20240501.zip"
    = "demo" +:+ "-v" +:+ version +:+ "-" +:+ (y +:+ m +:+ d) +:+ ".zip" ∧
    Py.int y = Some 2024 ∧ Py.int m = Some 5 ∧ Py.int d = Some 1.
Proof.
  split; [vm_compute; reflexivity|].
  destruct (archive_is_named Scenario.released Scenario.warm
              "demo-v2.1.0-20240501.zip"
              (create_deployment_package Scenario.released Scenario.warm).2)
    as (version & y & m & d & Hn & _ & _ & _ & _ & _ & Hy & Hm & Hd).
  - vm_compute. reflexivity.
  - vm_compute. reflexivity.
  - vm_compute. reflexivity.
  - vm_compute. reflexivity.
  - exists version, y, m, d. auto.
Defined.

(** ** The loop over the targets *)

Lemma targets_with_cons b srv rest v vs :
  targets_with b (srv :: rest) (v :: vs)
  = (if decide (v = b) then [srv] else []) ++ targets_with b rest vs.
Proof.
  unfold targets_with. simpl. rewrite filter_cons. simpl. by case_decide.
Qed.

(** One turn of the loop, for a deployer that can be constructed: the
    target goes to the end of one of the two lists, as [run] answers. *)
Lemma attempt_spec servers env srv t st deployer :
  OrbitDeployer servers env srv = Some deployer →
  ∃ v, verdicts servers env [srv] st = [v] ∧
    attempt servers env srv t st
    = (Done {| succeeded := succeeded t ++ (if v then [srv] else []);
               failed := failed t ++ (if v then [] else [srv]) |},
       (run deployer st).2).
Proof.
  intros Hd. unfold attempt. simpl. rewrite Hd.
  destruct (run deployer st) as [[[]|e] st']; simpl;
    [exists true | exists false | exists false];
    by rewrite ?app_nil_r.
Qed.

(** The loop, when every deployer can be constructed: every target gets
    its turn, in order, and lands in the list of its verdict. *)
Lemma deploy_loop_spec servers env targets t st :
  Forall (λ srv, is_Some (OrbitDeployer servers env srv)) targets →
  ∃ t' st',
    deploy_loop servers env targets t st = (Done t', st') ∧
    length (verdicts servers env targets st) = length targets ∧
    succeeded t' = succeeded t ++ targets_with true targets (verdicts servers env targets st) ∧
    failed t' = failed t ++ targets_with false targets (verdicts servers env targets st).
Proof.
  intros Hall. revert t st.
  induction Hall as [|srv rest [deployer Hd] _ IH]; intros t st.
  - exists t, st. simpl. by rewrite !app_nil_r.
  - simpl. unfold attempt. rewrite Hd.
    destruct (run deployer st) as [[[]|e] st1] eqn:Hrun.
    + destruct (IH {| succeeded := succeeded t ++ [srv]; failed := failed t |} st1)
        as (t' & st' & -> & Hlen & Hs & Hf).
      exists t', st'. rewrite !targets_with_cons. simpl in *.
      split; [done|]. split; [by rewrite Hlen|].
      rewrite Hs, Hf. by rewrite <- app_assoc.
    + destruct (IH {| succeeded := succeeded t; failed := failed t ++ [srv] |} st1)
        as (t' & st' & -> & Hlen & Hs & Hf).
      exists t', st'. rewrite !targets_with_cons. simpl in *.
      split; [done|]. split; [by rewrite Hlen|].
      rewrite Hs, Hf. by rewrite <- app_assoc.
    + destruct (IH {| succeeded := succeeded t; failed := failed t ++ [srv] |} st1)
        as (t' & st' & -> & Hlen & Hs & Hf).
      exists t', st'. rewrite !targets_with_cons. simpl in *.
      split; [done|]. split; [by rewrite Hlen|].
      rewrite Hs, Hf. by rewrite <- app_assoc.
Qed.

(** The two lists of a verdict list share the targets between them. *)
Lemma targets_with_partition targets vs :
  length vs = length targets →
  targets_with true targets vs ++ targets_with false targets vs ≡ₚ targets.
Proof.
  revert vs. induction targets as [|srv rest IH]; intros [|v vs] Hlen;
    simplify_eq/=; [done|].
  rewrite !targets_with_cons. destruct v; simpl.
  - by rewrite IH.
  - rewrite <- Permutation_middle. by rewrite IH.
Qed.

(** C10, as the code has it. When every target names a configured server
    and the project directory is there, so that no deployer ends the
    process on construction: the loop gives every target its turn, in
    order, each started in the state its predecessor left, whatever the
    earlier ones answered or raised; a target is listed as succeeded when
    its [run] returned [True] and as failed otherwise; the two lists
    together are the targets; and the summary is printed exactly when
    there is more than one target. *)
Theorem every_target_is_attempted servers env targets st :
  is_Some (project_dir env) →
  Forall (λ srv, is_Some (servers !! srv)) targets →
  ∃ t st',
    deploy_servers servers env targets st
    = (Done (t, if decide (1 < length targets)%nat then Some t else None), st') ∧
    length (verdicts servers env targets st) = length targets ∧
    succeeded t = targets_with true targets (verdicts servers env targets st) ∧
    failed t = targets_with false targets (verdicts servers env targets st) ∧
    succeeded t ++ failed t ≡ₚ targets.
Proof.
  intros [dir Hdir] Hall.
  assert (Forall (λ srv, is_Some (OrbitDeployer servers env srv)) targets) as Hok.
  { eapply Forall_impl; [exact Hall|]. intros srv [cfg Hcfg].
    unfold OrbitDeployer. rewrite Hcfg, Hdir. eauto. }
  destruct (deploy_loop_spec servers env targets
              {| succeeded := []; failed := [] |} st Hok)
    as (t & st' & Hloop & Hlen & Hs & Hf).
  exists t, st'. unfold deploy_servers. rewrite Hloop. simpl in *.
  split; [done|]. split; [done|]. split; [done|]. split; [done|].
  rewrite Hs, Hf. by apply targets_with_partition.
Qed.

(** Three targets, the second of which fails during the transfer and the
    third at the test: all three get their turn. *)
Lemma every_target_is_attempted_witness :
  ∃ t st',
    deploy_servers Scenario.three_servers Scenario.released
      ["alpha"; "beta"; "gamma"] Scenario.warm
    = (Done (t, Some t), st') ∧
    succeeded t = ["alpha"] ∧ failed t = ["beta"; "gamma"].
Proof.
  destruct (every_target_is_attempted Scenario.three_servers Scenario.released
              ["alpha"; "beta"; "gamma"] Scenario.warm)
    as (t & st' & Hd & _ & Hs & Hf & _).
  - vm_compute. eauto.
  - repeat constructor; vm_compute; eauto.
  - exists t, st'. split; [exact Hd|]. split.
    + rewrite Hs. vm_compute. reflexivity.
    + rewrite Hf. vm_compute. reflexivity.
Defined.

(** C10 as stated fails. The second target names a server that is not in
    the configuration: constructing its deployer ends the process, the
    third target never gets its turn, and no summary is printed, although
    the first target had been deployed. *)
Lemma unknown_server_stops_the_loop :
  Scenario.three_servers !! "ghost" = None ∧
  verdicts Scenario.three_servers Scenario.released
    ["alpha"; "ghost"; "gamma"] Scenario.warm = [true] ∧
  (deploy_servers Scenario.three_servers Scenario.released
     ["alpha"; "ghost"; "gamma"] Scenario.warm).1 = Exited.
Proof. vm_compute. repeat split; reflexivity. Qed.
